(** * Yank storage handlers: a shallow embedding of [Yank/storage_handlers.py]

    The development follows the Python module top to bottom: the path model
    ([decompose_path]), the Python values the handlers receive, the container
    substrate (groups, dimensions, attributed variables), the state and
    exception monad the methods run in, the abstract type handler
    ([NCVariableTypeHandler]), the coders, the seven concrete handlers and
    finally the driver ([NetCDFIODriver]).  Theorems come after all
    definitions. *)

From stdpp Require Import gmap strings list fin_maps pretty.
From Stdlib Require Import ZArith QArith Ascii String Lia.

Open Scope string_scope.
Open Scope Z_scope.

(* ===================================================================== *)
(** * Path model *)
(* ===================================================================== *)

Module Path.

(** Python's [str.split(sep)] for a one-character separator: the pieces
    between the separators, empty pieces included; the result is never the
    empty list. *)
Fixpoint py_split (sep : ascii) (s : string) : list string :=
  match s with
  | EmptyString => [EmptyString]
  | String c rest =>
      if Ascii.eqb c sep then EmptyString :: py_split sep rest
      else match py_split sep rest with
           | [] => [String c EmptyString]
           | piece :: pieces => String c piece :: pieces
           end
  end.

(** Python's [sep.join(pieces)]. *)
Fixpoint py_join (sep : string) (pieces : list string) : string :=
  match pieces with
  | [] => EmptyString
  | [p] => p
  | p :: ps => p ++ sep ++ py_join sep ps
  end.

Definition nonempty (s : string) : bool :=
  match s with EmptyString => false | String _ _ => true end.

(** [decompose_path]:
    [tuple((path_entry for path_entry in path.split('/') if path_entry != ''))] *)
Definition decompose_path (path : string) : list string :=
  List.filter nonempty (py_split "/" path).

(** The spec's wording, written as a scanner: walk the characters, close the
    current segment at every ['/'], and drop a segment that is empty.  [cur]
    holds the characters of the open segment in reverse. *)
Fixpoint scan_segments (cur : list ascii) (s : string) : list string :=
  let close cur :=
    match cur with
    | [] => []
    | _ => [string_of_list_ascii (rev cur)]
    end in
  match s with
  | EmptyString => close cur
  | String c rest =>
      if Ascii.eqb c "/" then close cur ++ scan_segments [] rest
      else scan_segments (c :: cur) rest
  end.

Definition decompose_spec (path : string) : list string := scan_segments [] path.

(** [prepend p pieces] puts [p] in front of the first piece. *)
Definition prepend (p : string) (pieces : list string) : list string :=
  match pieces with
  | [] => []
  | piece :: rest => (p ++ piece) :: rest
  end.

(** [split_path[:-1]] and [split_path[-1]]. *)
Definition all_but_last (l : list string) : list string := removelast l.

Definition last_entry (l : list string) : option string := List.last (map Some l) None.

(** [head_path = '/' + '/'.join(split_path[:-1])] *)
Definition head_path_of (split_path : list string) : string :=
  "/" ++ py_join "/" (all_but_last split_path).

End Path.

(* ===================================================================== *)
(** * Python values *)
(* ===================================================================== *)

(** The classes the module mentions.  numpy's [int64] and [float64] element
    types are identified with [int] and [float]; [t_Iterable] is the abstract
    base class [collections.Iterable]. *)
Inductive pytype :=
| t_int | t_float | t_str | t_bool | t_NoneType
| t_list | t_tuple | t_dict | t_ndarray
| t_Quantity | t_Unit | t_Iterable | t_type.

#[global] Instance pytype_eq_dec : EqDecision pytype.
Proof. solve_decision. Defined.

(** The values a caller can hand to a handler.  A quantity carries its
    payload and its unit, the unit being known to the module only through
    [str(data.unit)]; an array carries its element type, its shape and its
    cells in row-major order; a class object is a value too ([type(data)]). *)
Unset Elimination Schemes.
Inductive value :=
| VInt (z : Z)
| VFloat (q : Q)
| VStr (s : string)
| VBool (b : bool)
| VNone
| VList (items : list value)
| VTuple (items : list value)
| VArray (dtype : pytype) (shape : list Z) (cells : list value)
| VQuantity (payload : value) (unit_name : string)
| VUnit (unit_name : string)
| VDict (entries : list (string * value))
| VType (t : pytype).
Set Elimination Schemes.

(** The exceptions the module raises or lets through, by Python class, each
    with the message template of its raising site. *)
Inductive exn :=
| KeyError (msg : string)
| TypeError (msg : string)
| ValueError (msg : string)
| AttributeError (msg : string)
| IndexError (msg : string)
| NotImplementedError (msg : string)
| UnboundLocalError (msg : string)
| ImportError (msg : string)
| RuntimeError (msg : string)
| OverflowError (msg : string).

Inductive outcome (A : Type) :=
| Return (a : A)
| Raise (e : exn).
Arguments Return {A} a.
Arguments Raise {A} e.

Module Py.

(** [type(v)] *)
Definition type_of (v : value) : pytype :=
  match v with
  | VInt _ => t_int
  | VFloat _ => t_float
  | VStr _ => t_str
  | VBool _ => t_bool
  | VNone => t_NoneType
  | VList _ => t_list
  | VTuple _ => t_tuple
  | VArray _ _ _ => t_ndarray
  | VQuantity _ _ => t_Quantity
  | VUnit _ => t_Unit
  | VDict _ => t_dict
  | VType _ => t_type
  end.

(** [type(a) is b] on classes. *)
Definition type_is (a b : pytype) : bool := bool_decide (a = b).

(** [isinstance(v, cls)].  A class object is an instance of [type] only: it is
    no array, and [type] has no [__iter__], so it is not iterable either. *)
Definition isinstance (v : value) (cls : pytype) : bool :=
  match cls with
  | t_Iterable =>
      match v with
      | VStr _ | VList _ | VTuple _ | VArray _ _ _ | VDict _ | VQuantity _ _ => true
      | _ => false
      end
  | t_int => match v with VInt _ | VBool _ => true | _ => false end
  | _ => type_is (type_of v) cls
  end.

(** Truth value of an attribute or of a plain value ([if x:], [not x]). *)
Definition truthy (v : value) : bool :=
  match v with
  | VInt z => negb (z =? 0)
  | VFloat q => negb (Qnum q =? 0)
  | VStr s => Path.nonempty s
  | VBool b => b
  | VNone => false
  | VList l | VTuple l => match l with [] => false | _ => true end
  | VDict d => match d with [] => false | _ => true end
  | _ => true
  end.

(** [len(v)]: raises [TypeError] on a value without a length. *)
Definition len (v : value) : outcome Z :=
  match v with
  | VStr s => Return (Z.of_nat (String.length s))
  | VList l | VTuple l => Return (Z.of_nat (List.length l))
  | VDict d => Return (Z.of_nat (List.length d))
  | VArray _ (n :: _) _ => Return n
  | _ => Raise (TypeError "object has no len()")
  end.

(** [tuple(v)]: raises [TypeError] on a value that cannot be iterated, an
    integer among them. *)
Definition tuple (v : value) : outcome (list value) :=
  match v with
  | VList l | VTuple l => Return l
  | VStr s => Return (map (fun c => VStr (String c EmptyString)) (list_ascii_of_string s))
  | VDict d => Return (map (fun kv => VStr (fst kv)) d)
  | _ => Raise (TypeError "object is not iterable")
  end.

(** [a.flatten()[0]] *)
Definition flat_first (a : value) : outcome value :=
  match a with
  | VArray _ _ (x :: _) => Return x
  | VArray _ _ [] => Raise (IndexError "index 0 is out of bounds for axis 0 with size 0")
  | _ => Raise (AttributeError "object has no attribute 'flatten'")
  end.

(** [v[0]] *)
Definition first_item (v : value) : outcome value :=
  match v with
  | VList (x :: _) | VTuple (x :: _) => Return x
  | VList [] | VTuple [] | VArray _ _ [] => Raise (IndexError "index out of range")
  | VArray _ [_] (x :: _) => Return x
  | VArray dt (_ :: rest) cells =>
      Return (VArray dt rest (take (Z.to_nat (fold_right Z.mul 1 rest)) cells))
  | VArray _ [] _ => Raise (IndexError "too many indices for array")
  | VStr (String c _) => Return (VStr (String c EmptyString))
  | VStr EmptyString => Raise (IndexError "string index out of range")
  | VDict _ => Raise (KeyError "0")
  | _ => Raise (TypeError "object is not subscriptable")
  end.

(** [data / data.unit]: the payload of a quantity, its unit stripped. *)
Definition strip_unit (data : value) : value :=
  match data with
  | VQuantity payload _ => payload
  | other => other
  end.

(** [str(data.unit)] *)
Definition unit_string (data : value) : string :=
  match data with
  | VQuantity _ u => u
  | VUnit u => u
  | _ => EmptyString
  end.

(** [str(dtype)] of an array element type. *)
Definition dtype_string (t : pytype) : string :=
  match t with
  | t_int => "int64"
  | t_float => "float64"
  | t_bool => "bool"
  | _ => "object"
  end.

(** [s in stype] on strings. *)
Fixpoint is_prefix (p s : string) : bool :=
  match p, s with
  | EmptyString, _ => true
  | String a p', String b s' => Ascii.eqb a b && is_prefix p' s'
  | String _ _, EmptyString => false
  end.

Fixpoint contains (needle s : string) : bool :=
  is_prefix needle s ||
  match s with
  | EmptyString => false
  | String _ s' => contains needle s'
  end.

End Py.

(** Modelled from the spec: [typename] of [Yank/utils.py], which is not among
    the sources.  The spec gives the element-type names it produces: the bare
    class name for a builtin ([int], [float], [list], ...) and the dotted
    module path otherwise ([...ndarray]). *)
Definition typename (t : pytype) : string :=
  match t with
  | t_int => "int"
  | t_float => "float"
  | t_str => "str"
  | t_bool => "bool"
  | t_NoneType => "NoneType"
  | t_list => "list"
  | t_tuple => "tuple"
  | t_dict => "dict"
  | t_type => "type"
  | t_ndarray => "numpy.ndarray"
  | t_Quantity => "simtk.unit.quantity.Quantity"
  | t_Unit => "simtk.unit.unit.Unit"
  | t_Iterable => "collections.Iterable"
  end.

(* ===================================================================== *)
(** * The container substrate *)
(* ===================================================================== *)

(** The substrate is the netCDF4 library, external to the module; it is
    modelled as the library behaves: groups addressed by their absolute
    path, named dimensions (length [0] meaning unlimited), variables with a
    datatype, dimensions, an attribute dictionary and data.  [group[name]]
    takes a path: a missing group on the way raises [KeyError], a missing
    last name raises [IndexError]; a missing attribute raises
    [AttributeError].  A group counts as true; a variable has the length of
    its first axis, so a variable that holds no record counts as false and
    one without dimensions has no truth value.  A variable whose leading
    dimension is unlimited holds one block of cells per record and its
    length along that axis is its number of records; any other variable
    holds a single block.  Unwritten cells read as [VNone]. *)
Module NC.

Record variable := {
  var_datatype : pytype;
  var_dimensions : list string;
  var_attrs : gmap string value;
  var_records : list (list value)
}.

Record group := {
  grp_attrs : gmap string value;
  grp_dimensions : gmap string Z;
  grp_variables : gmap string variable
}.

Record dataset := { groups : gmap (list string) group }.

(** What [_bound_target] can point at: a variable of a group, or a group. *)
Inductive objref :=
| RefVariable (g : list string) (name : string)
| RefGroup (g : list string).

#[global] Instance objref_eq_dec : EqDecision objref.
Proof. solve_decision. Defined.

Definition empty_group : group :=
  {| grp_attrs := ∅; grp_dimensions := ∅; grp_variables := ∅ |}.

(** [nc.Dataset(file_name, 'w')]: a file with its root group only. *)
Definition new_dataset : dataset := {| groups := {[ [] := empty_group ]} |}.

Definition get_group (ds : dataset) (g : list string) : group :=
  default empty_group (groups ds !! g).

Definition put_group (ds : dataset) (g : list string) (grp : group) : dataset :=
  {| groups := <[g := grp]> (groups ds) |}.

Definition get_variable (ds : dataset) (g : list string) (name : string) : option variable :=
  grp_variables (get_group ds g) !! name.

Definition put_variable (ds : dataset) (g : list string) (name : string) (v : variable) : dataset :=
  let grp := get_group ds g in
  put_group ds g {| grp_attrs := grp_attrs grp;
                    grp_dimensions := grp_dimensions grp;
                    grp_variables := <[name := v]> (grp_variables grp) |}.

(** [name in group.groups] *)
Definition has_subgroup (ds : dataset) (g : list string) (name : string) : bool :=
  bool_decide (is_Some (groups ds !! (g ++ [name])%list)).

(** [path.startswith('/')] *)
Definition is_absolute (path : string) : bool :=
  match path with
  | String "/" _ => true
  | _ => false
  end.

(** The loop of [posixpath.normpath] over the pieces of [path.split('/')]:
    an empty piece and ['.'] are dropped; ['..'] cancels the component kept
    before it, is dropped at the root of an absolute path and is kept in
    front of a relative one.  [kept] holds the components kept so far, the
    last one first. *)
Fixpoint normpath_from (absolute : bool) (kept comps : list string) : list string :=
  match comps with
  | [] => rev kept
  | comp :: rest =>
      if String.eqb comp "" || String.eqb comp "."
      then normpath_from absolute kept rest
      else if negb (String.eqb comp "..")
              || (negb absolute && match kept with [] => true | _ => false end)
              || match kept with before :: _ => String.eqb before ".." | [] => false end
      then normpath_from absolute (comp :: kept) rest
      else normpath_from absolute (tail kept) rest
  end.

(** [posixpath.normpath(path)], as the components of the normal form; the
    normal form itself is these components joined by ['/'] behind the
    leading slashes of [path], or ['.'] when nothing is left of a relative
    path. *)
Definition normpath (path : string) : list string :=
  normpath_from (is_absolute path) [] (Path.py_split "/" path).

(** [group = group.groups[name]] for each name in turn: a plain dictionary
    lookup, [KeyError] on a missing group. *)
Fixpoint descend (ds : dataset) (g : list string) (names : list string) : outcome (list string) :=
  match names with
  | [] => Return g
  | name :: rest =>
      if has_subgroup ds g name
      then descend ds (g ++ [name])%list rest
      else Raise (KeyError name)
  end.

(** The cascade of [createGroup]: a group that is missing is created, one
    that exists is entered, like [mkdir -p]. *)
Fixpoint make_groups (ds : dataset) (g : list string) (segments : list string) : dataset * list string :=
  match segments with
  | [] => (ds, g)
  | seg :: rest =>
      let child := (g ++ [seg])%list in
      let ds' := match groups ds !! child with
                 | Some _ => ds
                 | None => put_group ds child empty_group
                 end in
      make_groups ds' child rest
  end.

(** [group.createGroup(path)]: the path is normalised and split at its
    slashes, the empty pieces are skipped, and the cascade starts at [group]
    itself.  A relative path of which nothing is left normalises to ['.'],
    which is then the name of the one group of the cascade. *)
Definition createGroup (ds : dataset) (g : list string) (path : string) : dataset * list string :=
  make_groups ds g
    match normpath path with
    | [] => if is_absolute path then [] else ["."]
    | comps => comps
    end.

(** A dimension is looked for in the group and then in its parents. *)
Fixpoint find_dimension_from (ds : dataset) (rev_path : list string) (name : string) : option Z :=
  match grp_dimensions (get_group ds (rev rev_path)) !! name with
  | Some n => Some n
  | None =>
      match rev_path with
      | [] => None
      | _ :: parent => find_dimension_from ds parent name
      end
  end.

Definition find_dimension (ds : dataset) (g : list string) (name : string) : option Z :=
  find_dimension_from ds (rev g) name.

(** [name in ncfile.dimensions] *)
Definition has_dimension (ds : dataset) (g : list string) (name : string) : bool :=
  bool_decide (is_Some (grp_dimensions (get_group ds g) !! name)).

(** [group.createDimension(name, size)] *)
Definition createDimension (ds : dataset) (g : list string) (name : string) (size : Z) : dataset :=
  let grp := get_group ds g in
  put_group ds g {| grp_attrs := grp_attrs grp;
                    grp_dimensions := <[name := size]> (grp_dimensions grp);
                    grp_variables := grp_variables grp |}.

Definition is_unlimited (ds : dataset) (g : list string) (name : string) : bool :=
  match find_dimension ds g name with
  | Some 0 => true
  | _ => false
  end.

Definition dimension_length (ds : dataset) (g : list string) (name : string) : Z :=
  default 0 (find_dimension ds g name).

(** Does the variable grow along its leading axis? *)
Definition grows (ds : dataset) (g : list string) (v : variable) : bool :=
  match var_dimensions v with
  | d :: _ => is_unlimited ds g d
  | [] => false
  end.

(** The shape of one record (of the whole block for a fixed variable). *)
Definition record_shape (ds : dataset) (g : list string) (v : variable) : list Z :=
  if grows ds g v
  then map (dimension_length ds g) (tail (var_dimensions v))
  else map (dimension_length ds g) (var_dimensions v).

(** [variable.shape] *)
Definition variable_shape (ds : dataset) (g : list string) (v : variable) : list Z :=
  if grows ds g v
  then Z.of_nat (List.length (var_records v)) :: record_shape ds g v
  else record_shape ds g v.

Definition cell_count (shape : list Z) : nat := Z.to_nat (fold_right Z.mul 1 shape).

Definition msg_not_found : string := "{} not found in {}".

(** [group[elem]]: the path is normalised and split at its last component
    ([posixpath.split]); the groups in front of it are entered one by one,
    from [group] itself also when the path has a leading slash, and a
    missing one raises the [KeyError] of the dictionary; the last component
    is looked for among the child groups, then among the variables, and
    raises [IndexError] when it is neither.  When nothing is left of the
    path, the last component is [''] (the path was a run of slashes) or
    ['.']. *)
Definition getitem (ds : dataset) (g : list string) (elem : string) : outcome objref :=
  let comps := normpath elem in
  let lastname := List.last comps (if is_absolute elem then "" else ".") in
  match descend ds g (removelast comps) with
  | Raise e => Raise e
  | Return group =>
      if has_subgroup ds group lastname then Return (RefGroup (group ++ [lastname])%list)
      else match get_variable ds group lastname with
           | Some _ => Return (RefVariable group lastname)
           | None => Raise (IndexError msg_not_found)
           end
  end.

(** [group.createVariable(name, datatype, dimensions=...)], as
    [NCDict._encode_dict] calls it. *)
Definition createVariable (ds : dataset) (g : list string) (name : string)
    (datatype : value) (dimensions : list string) : outcome (dataset * objref) :=
  match datatype with
  | VType t =>
      if negb (bool_decide (t ∈ [t_int; t_float; t_str; t_bool]))
      then Raise (TypeError "illegal primitive data type")
      else if negb (forallb (fun d => bool_decide (is_Some (find_dimension ds g d))) dimensions)
      then Raise (ValueError "cannot find dimension in this group or parent groups")
      else match get_variable ds g name with
           | Some _ => Raise (RuntimeError "NetCDF: String match to name in use")
           | None =>
               let v0 := {| var_datatype := t; var_dimensions := dimensions;
                            var_attrs := ∅; var_records := [] |} in
               let v := if grows ds g v0 then v0
                        else {| var_datatype := t; var_dimensions := dimensions;
                                var_attrs := ∅;
                                var_records := [repeat VNone (cell_count (record_shape ds g v0))] |} in
               Return (put_variable ds g name v, RefVariable g name)
           end
  | _ => Raise (TypeError "illegal primitive data type")
  end.

(** [obj.getncattr(name)] *)
Definition getncattr (ds : dataset) (ref : objref) (name : string) : outcome value :=
  let attrs := match ref with
               | RefGroup g => grp_attrs (get_group ds g)
               | RefVariable g n =>
                   match get_variable ds g n with
                   | Some v => var_attrs v
                   | None => ∅
                   end
               end in
  match attrs !! name with
  | Some a => Return a
  | None => Raise (AttributeError "NetCDF: Attribute not found")
  end.

(** [obj.setncattr(name, value)] *)
Definition setncattr (ds : dataset) (ref : objref) (name : string) (a : value) : dataset :=
  match ref with
  | RefGroup g =>
      let grp := get_group ds g in
      put_group ds g {| grp_attrs := <[name := a]> (grp_attrs grp);
                        grp_dimensions := grp_dimensions grp;
                        grp_variables := grp_variables grp |}
  | RefVariable g n =>
      match get_variable ds g n with
      | Some v =>
          put_variable ds g n {| var_datatype := var_datatype v;
                                 var_dimensions := var_dimensions v;
                                 var_attrs := <[name := a]> (var_attrs v);
                                 var_records := var_records v |}
      | None => ds
      end
  end.

(** [obj.setncatts(buffer)]: every pair of the dictionary is set. *)
Definition setncatts (ds : dataset) (ref : objref) (buffer : gmap string value) : dataset :=
  match ref with
  | RefGroup g =>
      let grp := get_group ds g in
      put_group ds g {| grp_attrs := buffer ∪ grp_attrs grp;
                        grp_dimensions := grp_dimensions grp;
                        grp_variables := grp_variables grp |}
  | RefVariable g n =>
      match get_variable ds g n with
      | Some v =>
          put_variable ds g n {| var_datatype := var_datatype v;
                                 var_dimensions := var_dimensions v;
                                 var_attrs := buffer ∪ var_attrs v;
                                 var_records := var_records v |}
      | None => ds
      end
  end.

(** The library does not delete variables; a reference to a variable that
    the file does not hold answers with the error of the C library. *)
Definition gone : exn := RuntimeError "NetCDF: Variable not found".

(** [obj.shape]; a group has none. *)
Definition shape (ds : dataset) (ref : objref) : outcome (list Z) :=
  match ref with
  | RefGroup _ => Raise (AttributeError "'Group' object has no attribute 'shape'")
  | RefVariable g n =>
      match get_variable ds g n with
      | Some v => Return (variable_shape ds g v)
      | None => Raise gone
      end
  end.

(** [bool(obj)], as [not self._bound_target] asks for it.  A group has no
    [__len__] and is true.  A variable has one: the length of its first
    axis, so that a variable which holds no record yet is false, and
    [TypeError] for a variable without dimensions. *)
Definition truth (ds : dataset) (ref : objref) : outcome bool :=
  match ref with
  | RefGroup _ => Return true
  | RefVariable _ _ =>
      match shape ds ref with
      | Raise e => Raise e
      | Return [] => Raise (TypeError "len() of unsized object")
      | Return (n :: _) => Return (negb (n =? 0))
      end
  end.

(** The integers a variable of datatype [int] holds are 64 bits wide. *)
Definition in_int64 (z : Z) : bool := (- 2 ^ 63 <=? z) && (z <? 2 ^ 63).

(** Storing converts a cell to the variable's datatype; an integer that
    does not fit raises [OverflowError]. *)
Definition cast (t : pytype) (c : value) : outcome value :=
  match t, c with
  | _, VNone => Return VNone
  | t_int, VInt z =>
      if in_int64 z then Return (VInt z)
      else Raise (OverflowError "Python int too large to convert to C long")
  | t_int, VBool b => Return (VInt (if b then 1 else 0))
  | t_int, VFloat q => Return (VInt (Z.quot (Qnum q) (Zpos (Qden q))))
  | t_float, VFloat q => Return (VFloat q)
  | t_float, VInt z => Return (VFloat (inject_Z z))
  | t_float, VBool b => Return (VFloat (inject_Z (if b then 1 else 0)))
  | t_bool, VBool b => Return (VBool b)
  | t_bool, VInt z => Return (VBool (negb (z =? 0)))
  | t_str, VStr s => Return (VStr s)
  | _, _ => Raise (ValueError "cannot convert the cell to the datatype")
  end.

Fixpoint cast_all (t : pytype) (cells : list value) : outcome (list value) :=
  match cells with
  | [] => Return []
  | c :: rest =>
      match cast t c with
      | Raise e => Raise e
      | Return c' =>
          match cast_all t rest with
          | Raise e => Raise e
          | Return rest' => Return (c' :: rest')
          end
      end
  end.

(** The cells [data] fills a block of shape [shp] with: a scalar is
    broadcast, an array or a flat sequence must have the block's shape. *)
Definition to_cells (t : pytype) (shp : list Z) (data : value) : outcome (list value) :=
  match data with
  | VInt _ | VFloat _ | VStr _ | VBool _ => cast_all t (repeat data (cell_count shp))
  | VArray _ dshape cells =>
      if bool_decide (dshape = shp) || bool_decide (List.length cells = 1%nat /\ cell_count shp = 1%nat)
      then cast_all t cells
      else Raise (ValueError "shape mismatch: the value cannot be broadcast to the variable")
  | VList items | VTuple items =>
      if bool_decide (shp = [Z.of_nat (List.length items)])
      then cast_all t items
      else Raise (ValueError "shape mismatch: the value cannot be broadcast to the variable")
  | _ => Raise (TypeError "the value cannot be stored in a variable")
  end.

Definition with_records (v : variable) (records : list (list value)) : variable :=
  {| var_datatype := var_datatype v; var_dimensions := var_dimensions v;
     var_attrs := var_attrs v; var_records := records |}.

(** [variable[:] = data]: every block the variable holds is overwritten. *)
Definition assign_all (ds : dataset) (ref : objref) (data : value) : outcome dataset :=
  match ref with
  | RefGroup _ => Raise (TypeError "'Group' object does not support item assignment")
  | RefVariable g n =>
      match get_variable ds g n with
      | None => Raise gone
      | Some v =>
          match to_cells (var_datatype v) (record_shape ds g v) data with
          | Raise e => Raise e
          | Return cells =>
              Return (put_variable ds g n (with_records v (map (fun _ => cells) (var_records v))))
          end
      end
  end.

(** [variable[index, :] = data]: record [index] is written; on the unlimited
    axis an index past the end grows the variable, the records in between
    holding fill cells. *)
Definition assign_record (ds : dataset) (ref : objref) (index : Z) (data : value) : outcome dataset :=
  match ref with
  | RefGroup _ => Raise (TypeError "'Group' object does not support item assignment")
  | RefVariable g n =>
      match get_variable ds g n with
      | None => Raise gone
      | Some v =>
          if negb (grows ds g v)
          then Raise (IndexError "index exceeds dimension bounds")
          else
            match to_cells (var_datatype v) (record_shape ds g v) data with
            | Raise e => Raise e
            | Return cells =>
                let i := Z.to_nat index in
                let old := var_records v in
                let fill := repeat VNone (cell_count (record_shape ds g v)) in
                let records :=
                  if bool_decide (i < List.length old)%nat
                  then <[i := cells]> old
                  else (old ++ repeat fill (i - List.length old) ++ [cells])%list in
                Return (put_variable ds g n (with_records v records))
            end
      end
  end.

(** [variable[:]]: the whole stored extent as an array. *)
Definition read_all (ds : dataset) (ref : objref) : outcome value :=
  match ref with
  | RefGroup _ => Raise (TypeError "'Group' object is not subscriptable")
  | RefVariable g n =>
      match get_variable ds g n with
      | None => Raise gone
      | Some v => Return (VArray (var_datatype v) (variable_shape ds g v) (List.concat (var_records v)))
      end
  end.

(** The rows of a block of cells, [size] cells each. *)
Fixpoint chunks (fuel size : nat) (cells : list value) : list (list value) :=
  match fuel, cells with
  | S fuel', _ :: _ => take size cells :: chunks fuel' size (drop size cells)
  | _, _ => []
  end.

(** [variable[:, 0]]: needs two axes; of every row along the first axis the
    first slab along the second is kept. *)
Definition read_column0 (ds : dataset) (ref : objref) : outcome value :=
  match ref with
  | RefGroup _ => Raise (TypeError "'Group' object is not subscriptable")
  | RefVariable g n =>
      match get_variable ds g n with
      | None => Raise gone
      | Some v =>
          match variable_shape ds g v with
          | rows :: _ :: rest =>
              let cells := List.concat (var_records v) in
              let row_size := cell_count (tail (variable_shape ds g v)) in
              Return (VArray (var_datatype v) (rows :: rest)
                        (List.concat (map (take (cell_count rest))
                                          (chunks (List.length cells) row_size cells))))
          | _ => Raise (IndexError "too many indices for the variable")
          end
      end
  end.

(** [array.astype(t)] *)
Definition astype (t : pytype) (a : value) : outcome value :=
  match a with
  | VArray _ shp cells =>
      match cast_all t cells with
      | Raise e => Raise e
      | Return cells' => Return (VArray t shp cells')
      end
  | _ => Raise (AttributeError "object has no attribute 'astype'")
  end.

End NC.

(* ===================================================================== *)
(** * Handler objects and the method monad *)
(* ===================================================================== *)

(** The concrete classes derived from [NCVariableTypeHandler]. *)
Inductive handler_class :=
| NCArray | NCFloat | NCInt | NCIterable | NCQuantity | NCString | NCDict.

#[global] Instance handler_class_eq_dec : EqDecision handler_class.
Proof. solve_decision. Defined.

(** What [_save_shape] holds: the tuple read from [.shape], or a plain
    integer (a length, or the [1] of a scalar quantity). *)
Inductive shape_value :=
| ShapeTuple (dims : list Z)
| ShapeInt (n : Z).

#[global] Instance shape_value_eq_dec : EqDecision shape_value.
Proof. solve_decision. Defined.

(** The three functions [NCQuantity._determine_data_information] can store in
    [_compare_shape]: [lambda x: x.shape], [lambda x: tuple(len(x))] and
    [lambda x: 1]. *)
Inductive comparator := by_shape | by_tuple_len | by_one.

(** The encoder and decoder pairs [_set_codifiers] chooses from. *)
Inductive coders := IntCoders | FloatCoders | IterableCoders | ArrayCoders.

(** The instance attributes of a handler.  Attributes that [__init__] does
    not create ([_save_shape], [_unit], [_compare_shape], [_encoder] and
    [_decoder]) are [None] until a method assigns them, and reading them
    before that raises [AttributeError]. *)
Record handler := {
  class : handler_class;
  _target : string;
  _bound_target : option NC.objref;
  _storage_object : list string;
  _metadata_buffer : gmap string value;
  _output_mode : option string;
  _save_shape : option shape_value;
  _unit : option value;
  _compare_shape : option comparator;
  _coders : option coders
}.

(** [NCVariableTypeHandler.__init__(parent_handler, target, storage_object)] *)
Definition new_handler (c : handler_class) (target : string) (storage_object : list string) : handler :=
  {| class := c; _target := target; _bound_target := None;
     _storage_object := storage_object; _metadata_buffer := ∅;
     _output_mode := None; _save_shape := None; _unit := None;
     _compare_shape := None; _coders := None |}.

(** A method runs on the file of the parent driver and on [self], and may
    emit warnings.  An exception leaves the mutations made so far in place. *)
Record state := {
  ncfile : NC.dataset;
  self : handler;
  warnings : list string
}.

Definition M (A : Type) : Type := state -> outcome A * state.

Definition ret {A} (a : A) : M A := fun s => (Return a, s).

Definition bind {A B} (m : M A) (k : A -> M B) : M B :=
  fun s => match m s with
           | (Return a, s') => k a s'
           | (Raise e, s') => (Raise e, s')
           end.

Definition raise {A} (e : exn) : M A := fun s => (Raise e, s).

(** [try: body / except <class>: handler] *)
Definition try_except {A} (body : M A) (catches : exn -> bool) (handler : M A) : M A :=
  fun s => match body s with
           | (Raise e, s') => if catches e then handler s' else (Raise e, s')
           | done => done
           end.

Definition lift {A} (o : outcome A) : M A := fun s => (o, s).

Notation "'let*' x ':=' m 'in' k" := (bind m (fun x => k))
  (at level 10, x name, m at level 100, k at level 200).
Notation "m >> k" := (bind m (fun _ => k)) (at level 90, right associativity).

Definition is_KeyError (e : exn) : bool := match e with KeyError _ => true | _ => false end.
Definition is_AttributeError (e : exn) : bool := match e with AttributeError _ => true | _ => false end.
Definition is_TypeError (e : exn) : bool := match e with TypeError _ => true | _ => false end.

Definition get_self : M handler := fun s => (Return (self s), s).
Definition get_file : M NC.dataset := fun s => (Return (ncfile s), s).

Definition set_file (ds : NC.dataset) : M unit :=
  fun s => (Return tt, {| ncfile := ds; self := self s; warnings := warnings s |}).

Definition update_self (f : handler -> handler) : M unit :=
  fun s => (Return tt, {| ncfile := ncfile s; self := f (self s); warnings := warnings s |}).

(** [warnings.warn(msg, RuntimeWarning)] *)
Definition warn (msg : string) : M unit :=
  fun s => (Return tt, {| ncfile := ncfile s; self := self s;
                          warnings := (warnings s ++ [msg])%list |}).

Definition set_bound_target (r : NC.objref) (h : handler) : handler :=
  {| class := class h; _target := _target h; _bound_target := Some r;
     _storage_object := _storage_object h; _metadata_buffer := _metadata_buffer h;
     _output_mode := _output_mode h; _save_shape := _save_shape h; _unit := _unit h;
     _compare_shape := _compare_shape h; _coders := _coders h |}.

Definition set_metadata_buffer (b : gmap string value) (h : handler) : handler :=
  {| class := class h; _target := _target h; _bound_target := _bound_target h;
     _storage_object := _storage_object h; _metadata_buffer := b;
     _output_mode := _output_mode h; _save_shape := _save_shape h; _unit := _unit h;
     _compare_shape := _compare_shape h; _coders := _coders h |}.

Definition set_output_mode (m : string) (h : handler) : handler :=
  {| class := class h; _target := _target h; _bound_target := _bound_target h;
     _storage_object := _storage_object h; _metadata_buffer := _metadata_buffer h;
     _output_mode := Some m; _save_shape := _save_shape h; _unit := _unit h;
     _compare_shape := _compare_shape h; _coders := _coders h |}.

Definition set_save_shape (sh : shape_value) (h : handler) : handler :=
  {| class := class h; _target := _target h; _bound_target := _bound_target h;
     _storage_object := _storage_object h; _metadata_buffer := _metadata_buffer h;
     _output_mode := _output_mode h; _save_shape := Some sh; _unit := _unit h;
     _compare_shape := _compare_shape h; _coders := _coders h |}.

Definition set_unit (u : value) (h : handler) : handler :=
  {| class := class h; _target := _target h; _bound_target := _bound_target h;
     _storage_object := _storage_object h; _metadata_buffer := _metadata_buffer h;
     _output_mode := _output_mode h; _save_shape := _save_shape h; _unit := Some u;
     _compare_shape := _compare_shape h; _coders := _coders h |}.

Definition set_compare_shape (c : comparator) (h : handler) : handler :=
  {| class := class h; _target := _target h; _bound_target := _bound_target h;
     _storage_object := _storage_object h; _metadata_buffer := _metadata_buffer h;
     _output_mode := _output_mode h; _save_shape := _save_shape h; _unit := _unit h;
     _compare_shape := Some c; _coders := _coders h |}.

Definition set_coders (c : coders) (h : handler) : handler :=
  {| class := class h; _target := _target h; _bound_target := _bound_target h;
     _storage_object := _storage_object h; _metadata_buffer := _metadata_buffer h;
     _output_mode := _output_mode h; _save_shape := _save_shape h; _unit := _unit h;
     _compare_shape := _compare_shape h; _coders := Some c |}.

(** Reading an attribute of [self] that may not have been assigned yet. *)
Definition attribute {A} (name : string) (field : handler -> option A) : M A :=
  let* h := get_self in
  match field h with
  | Some a => ret a
  | None => raise (AttributeError name)
  end.

(** [self._bound_target], once it is known not to be [None]. *)
Definition bound_target : M NC.objref :=
  let* h := get_self in
  match _bound_target h with
  | Some r => ret r
  | None => raise (AttributeError "'NoneType' object has no attribute")
  end.

(* ===================================================================== *)
(** * Messages and the spec's error taxonomy *)
(* ===================================================================== *)

Definition msg_invalid_type : string := "Invalid data type on variable {}.".
Definition msg_cannot_overwrite : string :=
  "{} at {} was saved as appendable data! Cannot overwrite, must use append()".
Definition msg_cannot_append : string :=
  "{} at {} was saved as static, non-appendable data! Cannot append, must use write()".
Definition msg_shape : string := "Input data must be of shape {} but is instead of shape {}!".
Definition msg_unit : string := "Input data must have units of {}, but instead is {}".
Definition msg_no_target : string :=
  "Cannot dump the metadata buffer to target since no target exists!".
Definition msg_no_detect : string :=
  "This TypeHandler cannot detect storage type for {}. .write() and .append() operations will not work and .read() operations may work".
Definition msg_dict_append : string := "Dictionaries cannot be appended to!".
Definition msg_quantity_type : string :=
  "NCQuantity does not know how to handle a quantity of type {}!".
Definition msg_no_variable : string := "No variable found at {} on file!".
Definition msg_no_autodetect : string :=
  "Cannot auto-detect variable type, ensure that 'IODriver_Type' is a set ncattr".
Definition msg_no_reader : string := "No mapped type handler known for 'IODriver_Type' = '{}'".
Definition msg_no_type_handler : string := "No known Type Handler for given type!".
Definition msg_chunksize : string :=
  "createVariable() got an unexpected keyword argument 'chunksize'".
Definition msg_data_type_name : string :=
  "local variable 'data_type_name' referenced before assignment".
Definition msg_not_callable : string := "'property' object is not callable".

(** The kinds of failure the spec names, as the exceptions the code raises
    for them. *)
Definition TypeMismatch : exn := TypeError msg_invalid_type.
Definition ShapeMismatch : exn := ValueError msg_shape.
Definition UnitMismatch : exn := ValueError msg_unit.
Definition UnknownType (e : exn) : Prop :=
  e = KeyError msg_no_reader \/ e = KeyError msg_no_type_handler.
Definition AttributeMissing : exn := AttributeError msg_no_autodetect.

(* ===================================================================== *)
(** * Dimension helpers of the driver *)
(* ===================================================================== *)

(** [NetCDFIODriver.check_scalar_dimension(ncfile)] *)
Definition check_scalar_dimension : M unit :=
  let* ds := get_file in
  if negb (NC.has_dimension ds [] "scalar")
  then set_file (NC.createDimension ds [] "scalar" 1)
  else ret tt.

(** [NetCDFIODriver.check_infinite_dimension(ncfile, name='iteration')] *)
Definition check_infinite_dimension : M unit :=
  let* ds := get_file in
  if negb (NC.has_dimension ds [] "iteration")
  then set_file (NC.createDimension ds [] "iteration" 0)
  else ret tt.

(** ['iterable{}'.format(length)] *)
Definition iterable_name (length : Z) : string := "iterable" ++ pretty length.

(** [NetCDFIODriver.check_iterable_dimension(ncfile, length)] *)
Definition check_iterable_dimension (length : value) : M unit :=
  match length with
  | VInt n =>
      if n <? 0 then raise (ValueError "length must be >= 0")
      else
        let* ds := get_file in
        if negb (NC.has_dimension ds [] (iterable_name n))
        then set_file (NC.createDimension ds [] (iterable_name n) n)
        else ret tt
  | _ => raise (TypeError "length must be an integer, not {}!")
  end.

(* ===================================================================== *)
(** * The abstract type handler *)
(* ===================================================================== *)

(** [_dtype] *)
Definition dtype_of (c : handler_class) : pytype :=
  match c with
  | NCArray => t_ndarray
  | NCFloat => t_float
  | NCInt => t_int
  | NCIterable => t_Iterable
  | NCQuantity => t_Quantity
  | NCString => t_str
  | NCDict => t_dict
  end.

(** [_dtype_type_string()], read through the property [type_string] *)
Definition type_string (c : handler_class) : string :=
  match c with
  | NCArray => "numpy.ndarray"
  | NCFloat => "float"
  | NCInt => "int"
  | NCIterable => "iterable"
  | NCQuantity => "quantity"
  | NCString => "str"
  | NCDict => "dict"
  end.

(** [not self._bound_target]: the truth value of the attribute, not a test
    against [None].  [None] is false; an object of the file has the truth
    value the library gives it. *)
Definition not_bound_target : M bool :=
  let* h := get_self in
  match _bound_target h with
  | None => ret true
  | Some r =>
      let* ds := get_file in
      let* truth := lift (NC.truth ds r) in
      ret (negb truth)
  end.

(** [add_metadata(name, value)] *)
Definition add_metadata (name : string) (a : value) : M unit :=
  let* unbound := not_bound_target in
  if unbound
  then
    let* h := get_self in
    update_self (set_metadata_buffer (<[name := a]> (_metadata_buffer h)))
  else
    let* r := bound_target in
    let* ds := get_file in
    set_file (NC.setncattr ds r name a).

(** [_dump_metadata_buffer()] *)
Definition _dump_metadata_buffer : M unit :=
  let* unbound := not_bound_target in
  if unbound
  then raise (UnboundLocalError msg_no_target)
  else
    let* h := get_self in
    let* r := bound_target in
    let* ds := get_file in
    set_file (NC.setncatts ds r (_metadata_buffer h)) >>
    update_self (set_metadata_buffer ∅).

(** [_check_write_append()] *)
Definition _check_write_append : M unit :=
  let* r := bound_target in
  let* ds := get_file in
  let* appendable := lift (NC.getncattr ds r "IODriver_Appendable") in
  if Py.truthy appendable
  then update_self (set_output_mode "a")
  else update_self (set_output_mode "r").

(** [attr != self.type_string] *)
Definition differs_from_string (a : value) (s : string) : bool :=
  match a with
  | VStr s' => negb (String.eqb s' s)
  | _ => true
  end.

(** The message of the [TypeError] in [_attempt_storage_read] is built with
    ["...".foramt(...)]: [str] has no such method, so evaluating the argument
    raises [AttributeError] before any [TypeError] exists. *)
Definition str_foramt : M string :=
  raise (AttributeError "'str' object has no attribute 'foramt'").

(** [_attempt_storage_read()] *)
Definition _attempt_storage_read : M unit :=
  let* h := get_self in
  let* ds := get_file in
  let* r := lift (NC.getitem ds (_storage_object h) (_target h)) in
  update_self (set_bound_target r) >>
  try_except
    (let* tag := lift (NC.getncattr ds r "IODriver_Type") in
     if differs_from_string tag (type_string (class h))
     then (let* msg := str_foramt in raise (TypeError msg))
     else ret tt)
    is_AttributeError
    (warn msg_no_detect).

(* ===================================================================== *)
(** * Coders *)
(* ===================================================================== *)

(** [variable.getValue()] of a variable without dimensions. *)
Definition getValue (ds : NC.dataset) (r : NC.objref) : outcome value :=
  match NC.read_all ds r with
  | Return (VArray _ _ (c :: _)) => Return c
  | Return _ => Raise (IndexError "to retrieve scalar value")
  | Raise e => Raise e
  end.

(** [NCStringDecoder(nc_variable)] *)
Definition NCStringDecoder (ds : NC.dataset) (r : NC.objref) : outcome value :=
  match NC.shape ds r with
  | Raise e => Raise e
  | Return [] =>
      match getValue ds r with
      | Return c => NC.cast t_str c
      | Raise e => Raise e
      end
  | Return _ =>
      match NC.read_column0 ds r with
      | Return a => NC.astype t_str a
      | Raise e => Raise e
      end
  end.

(** [NCStringEncoder(data)]: a one-cell object array holding [data]. *)
Definition NCStringEncoder (data : value) : value := VArray t_str [1] [data].

(** [NCIntDecoder(nc_variable)] *)
Definition NCIntDecoder (ds : NC.dataset) (r : NC.objref) : outcome value :=
  match NC.read_all ds r with
  | Return a => NC.astype t_int a
  | Raise e => Raise e
  end.

Definition NCIntEncoder (data : value) : value := data.

(** [NCFloatDecoder(nc_variable)] *)
Definition NCFloatDecoder (ds : NC.dataset) (r : NC.objref) : outcome value :=
  match NC.read_all ds r with
  | Return a => NC.astype t_float a
  | Raise e => Raise e
  end.

Definition NCFloatEncoder (data : value) : value := data.

(** [NCNPArrayDecoder(nc_variable)] *)
Definition NCNPArrayDecoder (ds : NC.dataset) (r : NC.objref) : outcome value :=
  NC.read_all ds r.

Definition NCNPArrayEncoder (data : value) : value := data.

(** What a name resolves to is decided by the interpreter the module runs
    in, not by the module: [builtin name] is [getattr(builtins, name)], with
    [None] for its [AttributeError], and [import_attribute module name] is
    [getattr(importlib.import_module(module), name)].  The classes are those
    of [pytype]. *)
Record interpreter := {
  builtin : string -> option pytype;
  import_attribute : string -> string -> outcome pytype
}.

(** [stored_type.rsplit(".", 1)]: the name split at its last dot, one piece
    only when it has none. *)
Definition rsplit_dot (name : string) : list string :=
  match Path.py_split "." name with
  | [] | [_] => [name]
  | pieces => [Path.py_join "." (removelast pieces); List.last pieces ""]
  end.

(** [NCVariableTypeHandler._convert_netcdf_store_type(stored_type)]: the name
    of a builtin resolves to the builtin; any other name is split at its last
    dot and looked up in the module in front of it; a bare name that is no
    builtin fails to unpack the [rsplit]. *)
Definition _convert_netcdf_store_type (py : interpreter) (stored_type : value) : outcome pytype :=
  match stored_type with
  | VStr name =>
      match builtin py name with
      | Some proper_type => Return proper_type
      | None =>
          match rsplit_dot name with
          | [module; attribute] => import_attribute py module attribute
          | _ => Raise (ValueError "not enough values to unpack (expected 2, got 1)")
          end
      end
  | _ => Raise (TypeError "getattr(): attribute name must be string")
  end.

(** [output_type(array)]: the call of a class on the cells read back. *)
Definition construct (output_type : pytype) (a : value) : outcome value :=
  match a with
  | VArray dt shp cells =>
      let items :=
        match shp with
        | _ :: (_ :: _) as rest =>
            map (VArray dt rest) (NC.chunks (List.length cells) (NC.cell_count rest) cells)
        | _ => cells
        end in
      match output_type with
      | t_list => Return (VList items)
      | t_tuple => Return (VTuple items)
      | t_ndarray => Return a
      | t_int | t_float | t_str | t_bool =>
          match cells with
          | [c] => NC.cast output_type c
          | _ => Raise (TypeError "only size-1 arrays can be converted to Python scalars")
          end
      | _ => Raise (TypeError "cannot construct the stored type from an array")
      end
  | _ => Raise (TypeError "cannot construct the stored type")
  end.

Fixpoint construct_all (output_type : pytype) (rows : list value) : outcome (list value) :=
  match rows with
  | [] => Return []
  | r :: rest =>
      match construct output_type r with
      | Raise e => Raise e
      | Return v =>
          match construct_all output_type rest with
          | Raise e => Raise e
          | Return vs => Return (v :: vs)
          end
      end
  end.

(** [NCIterableDecoder(nc_variable)] *)
Definition NCIterableDecoder (py : interpreter) (ds : NC.dataset) (r : NC.objref) : outcome value :=
  match NC.shape ds r with
  | Raise e => Raise e
  | Return shape =>
      match NC.getncattr ds r "type" with
      | Raise e => Raise e
      | Return type_name =>
          match _convert_netcdf_store_type py type_name with
          | Raise e => Raise e
          | Return output_type =>
              match NC.read_all ds r with
              | Raise e => Raise e
              | Return (VArray dt shp cells as whole) =>
                  if bool_decide (List.length shape = 1%nat)
                  then construct output_type whole
                  else
                    let rows := map (VArray dt (tail shp))
                                    (NC.chunks (List.length cells) (NC.cell_count (tail shp)) cells) in
                    match construct_all output_type rows with
                    | Raise e => Raise e
                    | Return out => Return (VArray output_type (firstn 1 shp) out)
                    end
              | Return _ => Raise (TypeError "not an array")
              end
          end
      end
  end.

(** [NCIterableEncoder(data)]: returns the triple
    [(nelements, element_type, element_type_name)]. *)
Definition NCIterableEncoder (data : value) : outcome value :=
  match Py.len data with
  | Raise e => Raise e
  | Return nelements =>
      match Py.first_item data with
      | Raise e => Raise e
      | Return first =>
          let element_type := Py.type_of first in
          Return (VTuple [VInt nelements; VType element_type; VStr (typename element_type)])
      end
  end.

(** Applying the encoder or the decoder a quantity handler has chosen. *)
Definition encode_with (c : coders) (data : value) : outcome value :=
  match c with
  | IntCoders => Return (NCIntEncoder data)
  | FloatCoders => Return (NCFloatEncoder data)
  | IterableCoders => NCIterableEncoder data
  | ArrayCoders => Return (NCNPArrayEncoder data)
  end.

Definition decode_with (py : interpreter) (c : coders) (ds : NC.dataset) (r : NC.objref)
    : outcome value :=
  match c with
  | IntCoders => NCIntDecoder ds r
  | FloatCoders => NCFloatDecoder ds r
  | IterableCoders => NCIterableDecoder py ds r
  | ArrayCoders => NCNPArrayDecoder ds r
  end.

(* ===================================================================== *)
(** * Steps the concrete handlers share *)
(* ===================================================================== *)

(** [self._bound_target is None] *)
Definition is_unbound (h : handler) : bool :=
  match _bound_target h with None => true | Some _ => false end.

(** [not self._output_mode] *)
Definition no_output_mode (h : handler) : bool :=
  match _output_mode h with
  | None => true
  | Some m => negb (Path.nonempty m)
  end.

(** [self._bound_target = self._storage_object.createVariable(self._target,
    datatype, dimensions=..., chunksize=...)], the call every [_bind_write]
    and [_bind_append] of a handler stored as a variable makes in its
    [except KeyError] branch.  The method of the library has no parameter
    [chunksize] (its keyword is [chunksizes]) and takes no other keywords:
    the call raises [TypeError] before the method runs, nothing is created
    and [_bound_target] is not assigned. *)
Definition createVariable (datatype : value) (dimensions : list string) : M unit :=
  raise (TypeError msg_chunksize).

(** The block of [add_metadata] calls that follows the creation of a
    variable in [_bind_write] and [_bind_append]. *)
Definition stamp (element_type : value) (unit_name : value) (appendable : Z) : M unit :=
  let* h := get_self in
  add_metadata "IODriver_Type" (VStr (type_string (class h))) >>
  add_metadata "type" element_type >>
  update_self (set_unit unit_name) >>
  add_metadata "IODriver_Unit" unit_name >>
  add_metadata "IODriver_Storage_Type" (VStr "variable") >>
  add_metadata "IODriver_Appendable" (VInt appendable).

(** [for length in data_shape: check_iterable_dimension(ncfile, length=length);
    dims.append('iterable{}'.format(length))] *)
Fixpoint iterable_dimensions (lengths : list Z) : M (list string) :=
  match lengths with
  | [] => ret []
  | n :: rest =>
      check_iterable_dimension (VInt n) >>
      let* dims := iterable_dimensions rest in
      ret (iterable_name n :: dims)
  end.

(** The guard [if self._output_mode != 'w': raise TypeError(...)] of every
    [write], and its counterpart in [append]. *)
Definition write_mode_guard : M unit :=
  let* h := get_self in
  if bool_decide (_output_mode h <> Some "w")
  then raise (TypeError msg_cannot_overwrite)
  else ret tt.

Definition append_mode_guard (msg : string) : M unit :=
  let* h := get_self in
  if bool_decide (_output_mode h <> Some "a")
  then raise (TypeError msg)
  else ret tt.

(** Calling the function stored in [_compare_shape]. *)
Definition apply_comparator (c : comparator) (x : value) : outcome shape_value :=
  match c with
  | by_shape =>
      match Py.strip_unit x with
      | VArray _ shp _ => Return (ShapeTuple shp)
      | _ => Raise (AttributeError "object has no attribute 'shape'")
      end
  | by_tuple_len =>
      match Py.len (Py.strip_unit x) with
      | Raise e => Raise e
      | Return n =>
          match Py.tuple (VInt n) with
          | Raise e => Raise e
          | Return _ => Return (ShapeTuple [n])
          end
      end
  | by_one => Return (ShapeInt 1)
  end.

(** [if self._save_shape != self._compare_shape(data): raise ValueError(...)] *)
Definition shape_guard (data : value) : M unit :=
  let* saved := attribute "_save_shape" _save_shape in
  let* compare := attribute "_compare_shape" _compare_shape in
  let* found := lift (apply_comparator compare data) in
  if bool_decide (saved <> found)
  then raise (ValueError msg_shape)
  else ret tt.

(** [self._bound_target[:] = packaged_data] *)
Definition store_all (packaged_data : value) : M unit :=
  let* r := bound_target in
  let* ds := get_file in
  let* ds' := lift (NC.assign_all ds r packaged_data) in
  set_file ds'.

(** [length = self._bound_target.shape[0]] *)
Definition current_length : M Z :=
  let* r := bound_target in
  let* ds := get_file in
  let* shp := lift (NC.shape ds r) in
  match shp with
  | n :: _ => ret n
  | [] => raise (IndexError "tuple index out of range")
  end.

(** [self._bound_target[length, :] = packaged_data] *)
Definition store_record (length : Z) (packaged_data : value) : M unit :=
  let* r := bound_target in
  let* ds := get_file in
  let* ds' := lift (NC.assign_record ds r length packaged_data) in
  set_file ds'.

(** The [_bind_read] of [NCArray], [NCFloat], [NCInt] and [NCIterable]: the
    four bodies are the same text. *)
Definition shaped_bind_read : M unit :=
  _attempt_storage_read >>
  _check_write_append >>
  let* h := get_self in
  let* r := bound_target in
  let* ds := get_file in
  let* shp := lift (NC.shape ds r) in
  if bool_decide (_output_mode h = Some "a")
  then update_self (set_save_shape (ShapeTuple (tail shp)))
  else update_self (set_save_shape (ShapeTuple shp)).

(** The head of every [read]:
    [if self._bound_target is None: self._bind_read()] and
    [if not self._output_mode: self._check_write_append()]. *)
Definition read_prologue (_bind_read : M unit) : M unit :=
  let* h := get_self in
  (if is_unbound h then _bind_read else ret tt) >>
  let* h' := get_self in
  if no_output_mode h' then _check_write_append else ret tt.

(* ===================================================================== *)
(** * NCArray *)
(* ===================================================================== *)

Definition NCArray_bind_read : M unit := shaped_bind_read.

(** [NCArray._determine_data_information(data)] *)
Definition NCArray_determine_data_information (data : value) : M (list Z * pytype * string) :=
  match data with
  | VArray dt shp _ => ret (shp, dt, typename (Py.type_of data))
  | _ => raise (AttributeError "object has no attribute 'shape'")
  end.

Definition NCArray_bind_write (data : value) : M unit :=
  try_except NCArray_bind_read is_KeyError
    (let* info := NCArray_determine_data_information data in
     let '(data_shape, data_base_type, _) := info in
     let* dims := iterable_dimensions data_shape in
     createVariable (VType data_base_type) dims >>
     stamp (VStr (Py.dtype_string data_base_type)) (VStr "NoneType") 0) >>
  _dump_metadata_buffer >>
  _check_write_append.

Definition NCArray_bind_append (data : value) : M unit :=
  try_except NCArray_bind_read is_KeyError
    (let* info := NCArray_determine_data_information data in
     let '(data_shape, data_base_type, _) := info in
     check_infinite_dimension >>
     let* dims := iterable_dimensions data_shape in
     createVariable (VType data_base_type) ("iteration" :: dims) >>
     stamp (VStr (Py.dtype_string data_base_type)) (VStr "NoneType") 1) >>
  _dump_metadata_buffer >>
  _check_write_append.

Definition NCArray_read : M value :=
  read_prologue NCArray_bind_read >>
  let* r := bound_target in
  let* ds := get_file in
  lift (NCNPArrayDecoder ds r).

Definition NCArray_write (data : value) : M unit :=
  if negb (Py.isinstance (VType (Py.type_of data)) (dtype_of NCArray))
  then raise (TypeError msg_invalid_type)
  else
    let* h := get_self in
    (if is_unbound h then NCArray_bind_write data else ret tt) >>
    write_mode_guard >>
    shape_guard data >>
    store_all (NCNPArrayEncoder data).

(** [NCArray.append] binds through [_bind_write], as the source does. *)
Definition NCArray_append (data : value) : M unit :=
  if negb (Py.isinstance (VType (Py.type_of data)) (dtype_of NCArray))
  then raise (TypeError msg_invalid_type)
  else
    let* h := get_self in
    (if is_unbound h then NCArray_bind_write data else ret tt) >>
    append_mode_guard msg_cannot_overwrite >>
    shape_guard data >>
    let* length := current_length in
    store_record length (NCNPArrayEncoder data).

(* ===================================================================== *)
(** * NCFloat and NCInt *)
(* ===================================================================== *)

(** The two classes differ in the Python type only ([float] against [int]),
    which is the parameter [t] of the shared bodies. *)
Definition number_bind_write (t : pytype) (data : value) : M unit :=
  try_except shaped_bind_read is_KeyError
    (check_scalar_dimension >>
     createVariable (VType t) ["scalar"] >>
     stamp (VStr (typename t)) (VStr "NoneType") 0) >>
  _dump_metadata_buffer >>
  _check_write_append.

Definition number_bind_append (t : pytype) (data : value) : M unit :=
  try_except shaped_bind_read is_KeyError
    (check_scalar_dimension >>
     check_infinite_dimension >>
     createVariable (VType t) ["iteration"; "scalar"] >>
     stamp (VStr (typename t)) (VStr "NoneType") 1) >>
  _dump_metadata_buffer >>
  _check_write_append.

Definition number_write (t : pytype) (encoder : value -> value) (data : value) : M unit :=
  if negb (Py.type_is (Py.type_of data) t)
  then raise (TypeError msg_invalid_type)
  else
    let* h := get_self in
    (if is_unbound h then number_bind_write t data else ret tt) >>
    write_mode_guard >>
    store_all (encoder data).

Definition number_append (t : pytype) (encoder : value -> value) (data : value) : M unit :=
  if negb (Py.type_is (Py.type_of data) t)
  then raise (TypeError msg_invalid_type)
  else
    let* h := get_self in
    (if is_unbound h then number_bind_append t data else ret tt) >>
    append_mode_guard msg_cannot_overwrite >>
    let* length := current_length in
    store_record length (encoder data).

Definition NCFloat_bind_read : M unit := shaped_bind_read.
Definition NCFloat_bind_write : value -> M unit := number_bind_write (dtype_of NCFloat).
Definition NCFloat_bind_append : value -> M unit := number_bind_append (dtype_of NCFloat).
Definition NCFloat_write : value -> M unit := number_write (dtype_of NCFloat) NCFloatEncoder.
Definition NCFloat_append : value -> M unit := number_append (dtype_of NCFloat) NCFloatEncoder.

Definition NCFloat_read : M value :=
  read_prologue NCFloat_bind_read >>
  let* r := bound_target in
  let* ds := get_file in
  lift (NCFloatDecoder ds r).

Definition NCInt_bind_read : M unit := shaped_bind_read.
Definition NCInt_bind_write : value -> M unit := number_bind_write (dtype_of NCInt).
Definition NCInt_bind_append : value -> M unit := number_bind_append (dtype_of NCInt).
Definition NCInt_write : value -> M unit := number_write (dtype_of NCInt) NCIntEncoder.
Definition NCInt_append : value -> M unit := number_append (dtype_of NCInt) NCIntEncoder.

Definition NCInt_read : M value :=
  read_prologue NCInt_bind_read >>
  let* r := bound_target in
  let* ds := get_file in
  lift (NCIntDecoder ds r).

(* ===================================================================== *)
(** * NCIterable *)
(* ===================================================================== *)

Definition NCIterable_bind_read : M unit := shaped_bind_read.

(** [NCIterable._determine_data_information(data)]; [data_base_type] is
    [data[0]], the first element itself. *)
Definition NCIterable_determine_data_information (data : value) : M (Z * value * string) :=
  let data_type_name := typename (Py.type_of data) in
  let* data_base_type := lift (Py.first_item data) in
  let* data_shape := lift (Py.len data) in
  ret (data_shape, data_base_type, data_type_name).

Definition NCIterable_bind_write (data : value) : M unit :=
  try_except NCIterable_bind_read is_KeyError
    (let* info := NCIterable_determine_data_information data in
     let '(data_shape, data_base_type, data_type_name) := info in
     check_iterable_dimension (VInt data_shape) >>
     createVariable data_base_type [iterable_name data_shape] >>
     stamp (VStr data_type_name) (VStr "NoneType") 0 >>
     update_self (set_save_shape (ShapeInt data_shape))) >>
  _dump_metadata_buffer >>
  _check_write_append.

Definition NCIterable_bind_append (data : value) : M unit :=
  try_except NCIterable_bind_read is_KeyError
    (let* info := NCIterable_determine_data_information data in
     let '(data_shape, data_base_type, data_type_name) := info in
     check_infinite_dimension >>
     check_iterable_dimension (VInt data_shape) >>
     createVariable data_base_type ["iteration"; iterable_name data_shape] >>
     stamp (VStr data_type_name) (VStr "NoneType") 1 >>
     update_self (set_save_shape (ShapeInt data_shape))) >>
  _dump_metadata_buffer >>
  _check_write_append.

Definition NCIterable_read (py : interpreter) : M value :=
  read_prologue NCIterable_bind_read >>
  let* r := bound_target in
  let* ds := get_file in
  lift (NCIterableDecoder py ds r).

Definition NCIterable_write (data : value) : M unit :=
  if negb (Py.isinstance (VType (Py.type_of data)) (dtype_of NCIterable))
  then raise (TypeError msg_invalid_type)
  else
    let* h := get_self in
    (if is_unbound h then NCIterable_bind_write data else ret tt) >>
    write_mode_guard >>
    shape_guard data >>
    let* packaged_data := lift (NCIterableEncoder data) in
    store_all packaged_data.

(** [NCIterable.append] binds through [_bind_write], as the source does. *)
Definition NCIterable_append (data : value) : M unit :=
  if negb (Py.isinstance (VType (Py.type_of data)) (dtype_of NCIterable))
  then raise (TypeError msg_invalid_type)
  else
    let* h := get_self in
    (if is_unbound h then NCIterable_bind_write data else ret tt) >>
    append_mode_guard msg_cannot_overwrite >>
    shape_guard data >>
    let* packaged_data := lift (NCIterableEncoder data) in
    let* length := current_length in
    store_record length packaged_data.

(* ===================================================================== *)
(** * NCQuantity *)
(* ===================================================================== *)

(** [NCQuantity._set_codifiers(stype)].  An attribute that is no string
    equals none of the names; ['ndarray' in stype] is then the membership
    test of a sequence, or [TypeError] on a number. *)
Definition _set_codifiers (stype : value) : M unit :=
  match stype with
  | VStr name =>
      if String.eqb name "int" then update_self (set_coders IntCoders)
      else if String.eqb name "float" then update_self (set_coders FloatCoders)
      else if String.eqb name "list" || String.eqb name "tuple"
      then update_self (set_coders IterableCoders)
      else if Py.contains "ndarray" name then update_self (set_coders ArrayCoders)
      else raise (TypeError msg_quantity_type)
  | VList items | VTuple items | VArray _ _ items =>
      if existsb (fun item => match item with VStr "ndarray" => true | _ => false end) items
      then update_self (set_coders ArrayCoders)
      else raise (TypeError msg_quantity_type)
  | VDict entries =>
      if existsb (fun entry => String.eqb (fst entry) "ndarray") entries
      then update_self (set_coders ArrayCoders)
      else raise (TypeError msg_quantity_type)
  | _ => raise (TypeError "argument of type is not iterable")
  end.

Definition NCQuantity_bind_read : M unit :=
  _attempt_storage_read >>
  _check_write_append >>
  let* h := get_self in
  let* r := bound_target in
  let* ds := get_file in
  let* shp := lift (NC.shape ds r) in
  (if bool_decide (_output_mode h = Some "a")
   then update_self (set_save_shape (ShapeTuple (tail shp)))
   else update_self (set_save_shape (ShapeTuple shp))) >>
  let* unit_name := lift (NC.getncattr ds r "IODriver_Unit") in
  update_self (set_unit unit_name) >>
  let* stype := lift (NC.getncattr ds r "type") in
  _set_codifiers stype.

(** [NCQuantity._determine_data_information(data)].  [tuple(len(data_value))]
    is evaluated as written: [len] gives an integer or raises [TypeError],
    and [tuple] of an integer raises [TypeError]. *)
Definition NCQuantity_determine_data_information (data : value)
    : M (shape_value * pytype * string) :=
  let data_value := Py.strip_unit data in
  let data_type_name := typename (Py.type_of data_value) in
  try_except
    (match data_value with
     | VArray _ shp _ =>
         let* first := lift (Py.flat_first data_value) in
         update_self (set_compare_shape by_shape) >>
         ret (ShapeTuple shp, Py.type_of first, data_type_name)
     | _ => raise (AttributeError "object has no attribute 'shape'")
     end)
    is_AttributeError
    (try_except
       (let* n := lift (Py.len data_value) in
        let* items := lift (Py.tuple (VInt n)) in
        let* first := lift (Py.first_item data_value) in
        update_self (set_compare_shape by_tuple_len) >>
        ret (ShapeTuple (map (fun _ => n) items), Py.type_of first, data_type_name))
       is_TypeError
       (update_self (set_compare_shape by_one) >>
        ret (ShapeInt 1, Py.type_of data_value, data_type_name))).

(** The creation branch shared by [_bind_write] ([leading = []],
    [appendable = 0]) and [_bind_append] ([leading = ["iteration"]],
    [appendable = 1]); it returns [data_type_name]. *)
Definition NCQuantity_create (leading : list string) (appendable : Z) (data : value) : M string :=
  let* info := NCQuantity_determine_data_information data in
  let '(data_shape, data_base_type, data_type_name) := info in
  (if bool_decide (leading <> []) then check_infinite_dimension else ret tt) >>
  (match data_shape with
   | ShapeInt 1 =>
       check_scalar_dimension >>
       createVariable (VType data_base_type) (leading ++ ["scalar"])%list
   | ShapeTuple lengths =>
       let* dims := iterable_dimensions lengths in
       createVariable (VType data_base_type) (leading ++ dims)%list
   | ShapeInt _ => raise (TypeError "'int' object is not iterable")
   end) >>
  stamp (VStr data_type_name) (VStr (Py.unit_string data)) appendable >>
  update_self (set_save_shape data_shape) >>
  ret data_type_name.

(** After the [try] statement [data_type_name] is a local that only the
    [except] branch has assigned. *)
Definition use_data_type_name (assigned : option string) : M unit :=
  match assigned with
  | Some data_type_name => _set_codifiers (VStr data_type_name)
  | None => raise (UnboundLocalError msg_data_type_name)
  end.

Definition NCQuantity_bind_write (data : value) : M unit :=
  let* data_type_name :=
    try_except (NCQuantity_bind_read >> ret None) is_KeyError
      (let* name := NCQuantity_create [] 0 data in ret (Some name)) in
  _dump_metadata_buffer >>
  _check_write_append >>
  use_data_type_name data_type_name.

Definition NCQuantity_bind_append (data : value) : M unit :=
  let* data_type_name :=
    try_except (NCQuantity_bind_read >> ret None) is_KeyError
      (let* name := NCQuantity_create ["iteration"] 1 data in ret (Some name)) in
  _dump_metadata_buffer >>
  _check_write_append >>
  use_data_type_name data_type_name.

(** [if self._unit != str(data.unit): raise ValueError(...)] *)
Definition unit_guard (data : value) : M unit :=
  let* unit_name := attribute "_unit" _unit in
  if differs_from_string unit_name (Py.unit_string data)
  then raise (ValueError msg_unit)
  else ret tt.

Definition NCQuantity_write (data : value) : M unit :=
  if negb (Py.type_is (Py.type_of data) (dtype_of NCQuantity))
  then raise (TypeError msg_invalid_type)
  else
    let* h := get_self in
    (if is_unbound h then NCQuantity_bind_write data else ret tt) >>
    write_mode_guard >>
    shape_guard data >>
    unit_guard data >>
    let* encoder := attribute "_encoder" _coders in
    let* packaged_data := lift (encode_with encoder (Py.strip_unit data)) in
    store_all packaged_data.

Definition NCQuantity_append (data : value) : M unit :=
  if negb (Py.type_is (Py.type_of data) (dtype_of NCQuantity))
  then raise (TypeError msg_invalid_type)
  else
    let* h := get_self in
    (if is_unbound h then NCQuantity_bind_append data else ret tt) >>
    append_mode_guard msg_cannot_overwrite >>
    shape_guard data >>
    unit_guard data >>
    let* length := current_length in
    let* encoder := attribute "_encoder" _coders in
    let* packaged_data := lift (encode_with encoder (Py.strip_unit data)) in
    store_record length packaged_data.

(** [NCQuantity.read()].  [quantity_from_string] belongs to [Yank/utils.py],
    which is not among the sources; it is a parameter: a parser that maps a
    unit expression to a unit or to a quantity, or raises. *)
Definition NCQuantity_read (py : interpreter)
    (quantity_from_string : string -> outcome value) : M value :=
  read_prologue NCQuantity_bind_read >>
  let* r := bound_target in
  let* ds := get_file in
  let* decoder := attribute "_decoder" _coders in
  let* data := lift (decode_with py decoder ds r) in
  let* unit_attr := lift (NC.getncattr ds r "IODriver_Unit") in
  match unit_attr with
  | VStr EmptyString => raise (IndexError "string index out of range")
  | VStr (String c _ as unit_name) =>
      let unit_name' :=
        if Ascii.eqb c "/" then "(" ++ unit_name ++ ")**-1" else unit_name in
      let* cast_unit := lift (quantity_from_string unit_name') in
      let cast_unit' :=
        match cast_unit with
        | VQuantity _ u => VUnit u
        | other => other
        end in
      match cast_unit' with
      | VUnit u => ret (VQuantity data u)
      | _ => raise (TypeError "unsupported operand type(s) for *")
      end
  | _ => raise (TypeError "the unit attribute is not a string")
  end.

(* ===================================================================== *)
(** * NCString *)
(* ===================================================================== *)

Definition NCString_bind_read : M unit := _attempt_storage_read.

Definition NCString_bind_write : M unit :=
  try_except NCString_bind_read is_KeyError
    (check_scalar_dimension >>
     createVariable (VType t_str) ["scalar"] >>
     add_metadata "IODriver_Type" (VStr (type_string NCString)) >>
     add_metadata "IODriver_Storage_Type" (VStr "variable") >>
     add_metadata "IODriver_Appendable" (VInt 0)) >>
  _dump_metadata_buffer >>
  _check_write_append.

Definition NCString_bind_append : M unit :=
  try_except NCString_bind_read is_KeyError
    (check_scalar_dimension >>
     check_infinite_dimension >>
     createVariable (VType t_str) ["iteration"; "scalar"] >>
     add_metadata "IODriver_Type" (VStr (type_string NCString)) >>
     add_metadata "IODriver_Storage_Type" (VStr "variable") >>
     add_metadata "IODriver_Appendable" (VInt 1)) >>
  _dump_metadata_buffer >>
  _check_write_append.

Definition NCString_read : M value :=
  read_prologue NCString_bind_read >>
  let* r := bound_target in
  let* ds := get_file in
  lift (NCStringDecoder ds r).

Definition NCString_write (data : value) : M unit :=
  if negb (Py.type_is (Py.type_of data) (dtype_of NCString))
  then raise (TypeError msg_invalid_type)
  else
    let* h := get_self in
    (if is_unbound h then NCString_bind_write else ret tt) >>
    write_mode_guard >>
    store_all (NCStringEncoder data).

Definition NCString_append (data : value) : M unit :=
  if negb (Py.type_is (Py.type_of data) (dtype_of NCString))
  then raise (TypeError msg_invalid_type)
  else
    let* h := get_self in
    (if is_unbound h then NCString_bind_append else ret tt) >>
    append_mode_guard msg_cannot_append >>
    let* length := current_length in
    store_record length (NCStringEncoder data).

(* ===================================================================== *)
(** * NCDict *)
(* ===================================================================== *)

Definition NCDict_bind_read : M unit := _attempt_storage_read.

(** [self._bound_target = self._storage_object.createGroup(self._target)] *)
Definition createGroup_target : M unit :=
  let* h := get_self in
  let* ds := get_file in
  let made := NC.createGroup ds (_storage_object h) (_target h) in
  set_file (fst made) >>
  update_self (set_bound_target (NC.RefGroup (snd made))).

Definition NCDict_bind_write : M unit :=
  try_except NCDict_bind_read is_KeyError createGroup_target >>
  add_metadata "IODriver_Type" (VStr (type_string NCDict)) >>
  add_metadata "IODriver_Storage_Type" (VStr "group") >>
  add_metadata "IODriver_Appendable" (VInt 0) >>
  _dump_metadata_buffer.

Definition NCDict_bind_append : M unit :=
  raise (NotImplementedError msg_dict_append).

(** A child variable of the record's group: created, filled, tagged. *)
Definition store_entry (g : list string) (name : string) (datatype : value)
    (dimensions : list string) (content : value) (type_name : string) : M unit :=
  let* ds := get_file in
  let* made := lift (NC.createVariable ds g name datatype dimensions) in
  let* filled := lift (NC.assign_all (fst made) (snd made) content) in
  set_file (NC.setncattr filled (snd made) "type" (VStr type_name)).

(** One turn of the loop of [_encode_dict]. *)
Definition encode_entry (g : list string) (datum_name : string) (datum : value) : M unit :=
  let datum_unit :=
    match datum with VQuantity _ u => Some u | _ => None end in
  let datum_value := Py.strip_unit datum in
  let datum_type_name := typename (Py.type_of datum_value) in
  let datum_value :=
    match datum_value with
    | VBool b => VInt (if b then 1 else 0)
    | other => other
    end in
  (match datum_value with
   | VStr _ =>
       store_entry g datum_name (VType t_str) ["scalar"] (NCStringEncoder datum_value)
                   datum_type_name
   | VNone =>
       store_entry g datum_name (VType t_int) [] (VInt 0) datum_type_name
   | _ =>
       if Py.isinstance datum_value t_Iterable
       then
         let* packed := lift (NCIterableEncoder datum_value) in
         match packed with
         | VTuple [VInt nelements; element_type; VStr element_type_name] =>
             let* ds := get_file in
             set_file (NC.createDimension ds g datum_name nelements) >>
             let* items := lift (match datum_value with
                                 | VArray _ _ cells => Return cells
                                 | other => Py.tuple other
                                 end) in
             store_entry g datum_name element_type [datum_name] (VList items)
                         element_type_name
         | _ => raise (TypeError "cannot unpack")
         end
       else
         store_entry g datum_name (VType (Py.type_of datum_value)) [] datum_value
                     datum_type_name
   end) >>
  match datum_unit with
  | Some u =>
      let* ds := get_file in
      set_file (NC.setncattr ds (NC.RefVariable g datum_name) "units" (VStr u))
  | None => ret tt
  end.

Fixpoint encode_entries (g : list string) (entries : list (string * value)) : M unit :=
  match entries with
  | [] => ret tt
  | (datum_name, datum) :: rest =>
      encode_entry g datum_name datum >> encode_entries g rest
  end.

(** [NCDict._encode_dict(data)]: [data.keys()] exists on a dict only. *)
Definition _encode_dict (data : value) : M unit :=
  check_scalar_dimension >>
  match data with
  | VDict entries =>
      let* r := bound_target in
      match r with
      | NC.RefGroup g => encode_entries g entries
      | NC.RefVariable _ _ =>
          match entries with
          | [] => ret tt
          | _ => raise (AttributeError "'Variable' object has no attribute 'createVariable'")
          end
      end
  | _ => raise (AttributeError "object has no attribute 'keys'")
  end.

(** [NCDict.write(data)]: there is no type check. *)
Definition NCDict_write (data : value) : M unit :=
  let* h := get_self in
  (if is_unbound h then NCDict_bind_write else ret tt) >>
  _encode_dict data.

Definition NCDict_append (data : value) : M unit := NCDict_bind_append.

(* ===================================================================== *)
(** * Method dispatch *)
(* ===================================================================== *)

(** [handler.write(data)] and [handler.append(data)], resolved on the class
    of [self]. *)
Definition write (data : value) : M unit :=
  let* h := get_self in
  match class h with
  | NCArray => NCArray_write data
  | NCFloat => NCFloat_write data
  | NCInt => NCInt_write data
  | NCIterable => NCIterable_write data
  | NCQuantity => NCQuantity_write data
  | NCString => NCString_write data
  | NCDict => NCDict_write data
  end.

Definition append (data : value) : M unit :=
  let* h := get_self in
  match class h with
  | NCArray => NCArray_append data
  | NCFloat => NCFloat_append data
  | NCInt => NCInt_append data
  | NCIterable => NCIterable_append data
  | NCQuantity => NCQuantity_append data
  | NCString => NCString_append data
  | NCDict => NCDict_append data
  end.

Definition _bind_read : M unit :=
  let* h := get_self in
  match class h with
  | NCArray => NCArray_bind_read
  | NCFloat => NCFloat_bind_read
  | NCInt => NCInt_bind_read
  | NCIterable => NCIterable_bind_read
  | NCQuantity => NCQuantity_bind_read
  | NCString => NCString_bind_read
  | NCDict => NCDict_bind_read
  end.

(* ===================================================================== *)
(** * NetCDFIODriver *)
(* ===================================================================== *)

(** The driver owns the open file, the group cache [_groups] and the handler
    cache [_variables].  Handlers are objects: the caches and the callers
    hold references (indices into [objects]) to the same instance.  The
    reader registry [_IOMetaDataReaders] is an attribute that an instance
    may not have ([None]): [__init__] raises in the statement that is to
    assign it. *)
Record driver := {
  drv_ncfile : NC.dataset;
  _groups : gmap string (list string);
  _variables : gmap string nat;
  objects : list handler;
  drv_warnings : list string;
  _IOMetaDataReaders : option (gmap string handler_class)
}.

Definition D (A : Type) : Type := driver -> outcome A * driver.

(** [NetCDFIODriver.__init__(file_name, access_mode)], with [opened] for
    what [nc.Dataset(file_name, access_mode)] returns.  The last statement
    builds the registry from [self._type_maps[key].type_string()]:
    [type_string] is a property and is read here on the class, so what is
    called is the property object, and the call raises [TypeError].  The
    constructor raises whatever its arguments; the instance is left with
    the attributes assigned before, and a caller has it only if it made the
    instance itself. *)
Definition NetCDFIODriver_init (opened : NC.dataset) : outcome unit * driver :=
  (Raise (TypeError msg_not_callable),
   {| drv_ncfile := opened; _groups := ∅; _variables := ∅;
      objects := []; drv_warnings := []; _IOMetaDataReaders := None |}).

(** [_type_maps], as [__init__] fills it through [add_deencoder]. *)
Definition _type_maps (type_key : value) : outcome handler_class :=
  match type_key with
  | VType t_str => Return NCString
  | VType t_int => Return NCInt
  | VType t_dict => Return NCDict
  | VType t_float => Return NCFloat
  | VType t_list => Return NCIterable
  | VType t_tuple => Return NCIterable
  | VType t_ndarray => Return NCArray
  | VType t_Quantity => Return NCQuantity
  | VList _ | VDict _ | VArray _ _ _ => Raise (TypeError "unhashable type")
  | _ => Raise (KeyError "type_key")
  end.

(** The registry the last statement of [__init__] is after: the handler
    classes of [_type_maps] under their type strings.  No statement of the
    module assigns it; an instance has it only if something else did. *)
Definition readers_by_type_string : gmap string handler_class :=
  list_to_map
    (map (fun c => (type_string c, c))
         [NCString; NCInt; NCDict; NCFloat; NCIterable; NCArray; NCQuantity]).

(** [registry[data_type]]: the lookup of a dictionary keyed by strings.  A
    list, a dict or an array is no key at all ([TypeError]); any other value
    that is not one of the keys raises [KeyError]. *)
Definition registry_getitem (registry : gmap string handler_class) (data_type : value)
    : outcome handler_class :=
  match data_type with
  | VStr tag =>
      match registry !! tag with
      | Some c => Return c
      | None => Raise (KeyError tag)
      end
  | VList _ | VDict _ | VArray _ _ _ => Raise (TypeError "unhashable type")
  | _ => Raise (KeyError "data_type")
  end.

(** [_bind_group(path)] *)
Definition _bind_group (path : string) : D (list string) :=
  fun d =>
    let made := NC.createGroup (drv_ncfile d) [] path in
    (Return (snd made),
     {| drv_ncfile := fst made; _groups := <[path := snd made]> (_groups d);
        _variables := _variables d; objects := objects d;
        drv_warnings := drv_warnings d;
        _IOMetaDataReaders := _IOMetaDataReaders d |}).

(** [self._variables[path] = handler_class(self, target_name,
    storage_object=group)]: a new object is constructed and the cache entry
    for [path] points at it. *)
Definition install_handler (path : string) (c : handler_class) (target_name : string)
    (group : list string) : D nat :=
  fun d =>
    let id := List.length (objects d) in
    (Return id,
     {| drv_ncfile := drv_ncfile d; _groups := _groups d;
        _variables := <[path := id]> (_variables d);
        objects := (objects d ++ [new_handler c target_name group])%list;
        drv_warnings := drv_warnings d;
        _IOMetaDataReaders := _IOMetaDataReaders d |}).

(** [create_storage_variable(path, type_key)] *)
Definition create_storage_variable (path : string) (type_key : value) : D nat :=
  fun d =>
    match _type_maps type_key with
    | Raise (KeyError _) => (Raise (KeyError msg_no_type_handler), d)
    | Raise e => (Raise e, d)
    | Return handler =>
        let split_path := Path.decompose_path path in
        let head_path := Path.head_path_of split_path in
        match Path.last_entry split_path with
        | None => (Raise (IndexError "tuple index out of range"), d)
        | Some target_name =>
            match _bind_group head_path d with
            | (Raise e, d') => (Raise e, d')
            | (Return group, d') => install_handler path handler target_name group d'
            end
        end
    end.

(** The first [try] block of [get_variable_handler]: walk down the groups
    and find the object the path names. *)
Fixpoint walk_groups (ds : NC.dataset) (head_group : list string) (headers : list string)
    : outcome (list string) :=
  match headers with
  | [] => Return head_group
  | header :: rest =>
      if NC.has_subgroup ds head_group header
      then walk_groups ds (head_group ++ [header])%list rest
      else Raise (KeyError header)
  end.

Definition locate (ds : NC.dataset) (split_path : list string) : outcome NC.objref :=
  match walk_groups ds [] (Path.all_but_last split_path) with
  | Raise e => Raise e
  | Return head_group =>
      match Path.last_entry split_path with
      | None => Raise (IndexError "tuple index out of range")
      | Some name =>
          let as_group :=
            if NC.has_subgroup ds head_group name
            then
              let obj := NC.RefGroup (head_group ++ [name])%list in
              match NC.getncattr ds obj "IODriver_Storage_Type" with
              | Return (VStr "group") => Some obj
              | _ => None
              end
            else None in
          match as_group with
          | Some obj => Return obj
          | None =>
              match NC.get_variable ds head_group name with
              | Some _ => Return (NC.RefVariable head_group name)
              | None => Raise (KeyError name)
              end
          end
      end
  end.

(** [get_variable_handler(path)].  In the second [try] block the registry
    is read off [self] after the group is bound: on an instance without the
    attribute that is an [AttributeError], which the block's own handler
    turns into its auto-detect error. *)
Definition get_variable_handler (path : string) : D nat :=
  fun d =>
    match _variables d !! path with
    | Some handler => (Return handler, d)
    | None =>
        let split_path := Path.decompose_path path in
        match locate (drv_ncfile d) split_path with
        | Raise (KeyError _) => (Raise (KeyError msg_no_variable), d)
        | Raise e => (Raise e, d)
        | Return variable =>
            match NC.getncattr (drv_ncfile d) variable "IODriver_Type" with
            | Raise (AttributeError _) => (Raise (AttributeError msg_no_autodetect), d)
            | Raise e => (Raise e, d)
            | Return data_type =>
                let head_path := Path.head_path_of split_path in
                match Path.last_entry split_path with
                | None => (Raise (IndexError "tuple index out of range"), d)
                | Some target_name =>
                    match _bind_group head_path d with
                    | (Raise e, d') => (Raise e, d')
                    | (Return group, d') =>
                        match _IOMetaDataReaders d' with
                        | None => (Raise (AttributeError msg_no_autodetect), d')
                        | Some registry =>
                            match registry_getitem registry data_type with
                            | Raise (KeyError _) => (Raise (KeyError msg_no_reader), d')
                            | Raise e => (Raise e, d')
                            | Return uninstanced_handler =>
                                install_handler path uninstanced_handler target_name group d'
                            end
                        end
                    end
                end
            end
        end
    end.

(** A fresh handler bound to nothing, on a file, outside any driver. *)
Definition fresh (c : handler_class) (target : string) (ds : NC.dataset) : state :=
  {| ncfile := ds; self := new_handler c target []; warnings := [] |}.

(** [handler._bind_write(data)] and [handler._bind_append(data)], resolved on
    the class of [self]; [NCString] and [NCDict] take no data. *)
Definition _bind_write (data : value) : M unit :=
  let* h := get_self in
  match class h with
  | NCArray => NCArray_bind_write data
  | NCFloat => NCFloat_bind_write data
  | NCInt => NCInt_bind_write data
  | NCIterable => NCIterable_bind_write data
  | NCQuantity => NCQuantity_bind_write data
  | NCString => NCString_bind_write
  | NCDict => NCDict_bind_write
  end.

Definition _bind_append (data : value) : M unit :=
  let* h := get_self in
  match class h with
  | NCArray => NCArray_bind_append data
  | NCFloat => NCFloat_bind_append data
  | NCInt => NCInt_bind_append data
  | NCIterable => NCIterable_bind_append data
  | NCQuantity => NCQuantity_bind_append data
  | NCString => NCString_bind_append
  | NCDict => NCDict_bind_append
  end.

(* ===================================================================== *)
(** * Histories of a handler *)
(* ===================================================================== *)

(** What a caller can do to a handler.  A [read()] changes the handler
    through its prologue only (the decoders that follow are pure), so the
    prologue stands for it; the [read()] of the record handler only binds,
    which is [do_bind_read]. *)
Inductive method :=
| do_write (data : value)
| do_append (data : value)
| do_read
| do_bind_read
| do_check_write_append
| do_add_metadata (name : string) (a : value).

Definition run_method (m : method) : M unit :=
  match m with
  | do_write data => write data
  | do_append data => append data
  | do_read => read_prologue _bind_read
  | do_bind_read => _bind_read
  | do_check_write_append => _check_write_append
  | do_add_metadata name a => add_metadata name a
  end.

(** The states a handler can be in: it is constructed on some file, methods
    are called on it (normally or not: an exception keeps the mutations made
    before it), and between two calls the rest of the program may change
    the file and emit warnings. *)
Inductive reachable : state -> Prop :=
| reachable_new (c : handler_class) (target : string) (storage_object : list string)
    (ds : NC.dataset) (w : list string) :
    reachable {| ncfile := ds; self := new_handler c target storage_object; warnings := w |}
| reachable_call (s : state) (m : method) :
    reachable s -> reachable (snd (run_method m s))
| reachable_elsewhere (s : state) (ds : NC.dataset) (w : list string) :
    reachable s -> reachable {| ncfile := ds; self := self s; warnings := w |}.

(** The output mode is never ['w']. *)
Definition never_w (h : handler) : Prop := _output_mode h <> Some "w".

(** A method keeps a property of [self], whether it returns or raises. *)
Definition keeps (P : handler -> Prop) {A} (m : M A) : Prop :=
  forall s, P (self s) -> P (self (snd (m s))).

(** The test every [write] and [append] opens with, as the class of the
    handler writes it: [type(data) is self._dtype] for the scalar kinds and
    the quantity, [isinstance(type(data), self._dtype)] for the array and the
    sequence.  [NCDict] has no such test. *)
Definition type_gate (c : handler_class) (data : value) : bool :=
  match c with
  | NCArray | NCIterable => Py.isinstance (VType (Py.type_of data)) (dtype_of c)
  | NCFloat | NCInt | NCQuantity | NCString => Py.type_is (Py.type_of data) (dtype_of c)
  | NCDict => true
  end.

Definition array_34 : value := VArray t_int [2] [VInt 3; VInt 4].

(** The attributes the module's conventions put on a stored variable. *)
Definition conventions (tag element_type unit_name : string) (appendable : Z)
    : gmap string value :=
  list_to_map
    [("IODriver_Type", VStr tag); ("type", VStr element_type);
     ("IODriver_Unit", VStr unit_name); ("IODriver_Storage_Type", VStr "variable");
     ("IODriver_Appendable", VInt appendable)].

(** A file that already holds objects, as a file written by another program
    along the module's conventions does.  In the root group:
    - [count], an integer written once (it holds [42]);
    - [series], a growing series of floats that holds one entry, and
      [blank], a growing series that holds none yet;
    - [temperature], a growing series of quantities in kelvin, each an
      array of shape [(2,)], that holds one entry, and [rate], a quantity
      written once whose unit has a denominator only;
    - [grid], an array of shape [(2,)] written once;
    - [legacy], a variable without any attribute, [foreign], whose type tag
      names no handler, and [odd], whose type tag is an array;
    - the group [record], marked as a stored dict, and the group [plain],
      which carries no attribute. *)
Definition on_file : NC.dataset :=
  let variable t dims attrs records :=
    {| NC.var_datatype := t; NC.var_dimensions := dims;
       NC.var_attrs := attrs; NC.var_records := records |} in
  {| NC.groups :=
       list_to_map
         [([],
           {| NC.grp_attrs := ∅;
              NC.grp_dimensions :=
                list_to_map [("scalar", 1); ("iteration", 0); ("iterable2", 2)];
              NC.grp_variables :=
                list_to_map
                  [("count",
                    variable t_int ["scalar"] (conventions "int" "int" "NoneType" 0)
                      [[VInt 42]]);
                   ("series",
                    variable t_float ["iteration"; "scalar"]
                      (conventions "float" "float" "NoneType" 1) [[VFloat (1 # 4)]]);
                   ("blank",
                    variable t_float ["iteration"; "scalar"]
                      (conventions "float" "float" "NoneType" 1) []);
                   ("temperature",
                    variable t_int ["iteration"; "iterable2"]
                      (conventions "quantity" "numpy.ndarray" "kelvin" 1)
                      [[VInt 1; VInt 2]]);
                   ("rate",
                    variable t_int ["scalar"] (conventions "quantity" "int" "/second" 0)
                      [[VInt 50]]);
                   ("grid",
                    variable t_int ["iterable2"]
                      (conventions "numpy.ndarray" "int64" "NoneType" 0)
                      [[VInt 1; VInt 2]]);
                   ("legacy", variable t_float ["scalar"] ∅ [[VFloat (1 # 2)]]);
                   ("foreign",
                    variable t_float ["scalar"] {[ "IODriver_Type" := VStr "complex" ]}
                      [[VFloat (1 # 2)]]);
                   ("odd",
                    variable t_float ["scalar"]
                      {[ "IODriver_Type" := VArray t_int [2] [VInt 1; VInt 2] ]}
                      [[VFloat (1 # 2)]])] |});
          (["record"],
           {| NC.grp_attrs :=
                list_to_map
                  [("IODriver_Type", VStr "dict"); ("IODriver_Storage_Type", VStr "group");
                   ("IODriver_Appendable", VInt 0)];
              NC.grp_dimensions := ∅; NC.grp_variables := ∅ |});
          (["plain"], NC.empty_group)] |}.

(** The driver instance the constructor leaves behind when it raises, on a
    file [opened]. *)
Definition left_by_init (opened : NC.dataset) : driver :=
  snd (NetCDFIODriver_init opened).

(** The same instance once something has assigned the registry the
    constructor is after. *)
Definition with_registry (d : driver) : driver :=
  {| drv_ncfile := drv_ncfile d; _groups := _groups d; _variables := _variables d;
     objects := objects d; drv_warnings := drv_warnings d;
     _IOMetaDataReaders := Some readers_by_type_string |}.

(** A property of a handler is stable when none of the assignments the
    methods make to [self] breaks it.  [_output_mode] is assigned ['a'] or
    ['r'] and nothing else. *)
Definition stable (P : handler -> Prop) : Prop :=
  (forall r h, P h -> P (set_bound_target r h)) /\
  (forall b h, P h -> P (set_metadata_buffer b h)) /\
  (forall h, P h -> P (set_output_mode "a" h)) /\
  (forall h, P h -> P (set_output_mode "r" h)) /\
  (forall sh h, P h -> P (set_save_shape sh h)) /\
  (forall u h, P h -> P (set_unit u h)) /\
  (forall c h, P h -> P (set_compare_shape c h)) /\
  (forall c h, P h -> P (set_coders c h)).


(** The lookup [self._storage_object[self._target]] of the read-bind. *)
Definition target_lookup (s : state) : outcome NC.objref :=
  NC.getitem (ncfile s) (_storage_object (self s)) (_target (self s)).

(** The three classes stored as one cell per entry. *)
Definition scalar_class (c : handler_class) : bool :=
  match c with
  | NCFloat | NCInt | NCString => true
  | _ => false
  end.


(** The state after the calls of [history], made in order. *)
Definition after (history : list method) (s : state) : state :=
  fold_left (fun st m => snd (run_method m st)) history s.

(** Nothing waits in the metadata buffer. *)
Definition nothing_buffered (h : handler) : Prop := _metadata_buffer h = ∅.



(** The four classes on which both the type test and the mode guard can be
    reached: integer, float, string and quantity. *)
Definition scalar_or_quantity (c : handler_class) : bool :=
  match c with
  | NCFloat | NCInt | NCString | NCQuantity => true
  | NCArray | NCIterable | NCDict => false
  end.

(** What [append] runs once the value has passed the type test and the
    handler is bound: the mode guard and the steps after it. *)
Definition append_tail (c : handler_class) (data : value) : M unit :=
  match c with
  | NCArray =>
      append_mode_guard msg_cannot_overwrite >>
      shape_guard data >>
      let* length := current_length in
      store_record length (NCNPArrayEncoder data)
  | NCFloat =>
      append_mode_guard msg_cannot_overwrite >>
      let* length := current_length in
      store_record length (NCFloatEncoder data)
  | NCInt =>
      append_mode_guard msg_cannot_overwrite >>
      let* length := current_length in
      store_record length (NCIntEncoder data)
  | NCIterable =>
      append_mode_guard msg_cannot_overwrite >>
      shape_guard data >>
      let* packaged_data := lift (NCIterableEncoder data) in
      let* length := current_length in
      store_record length packaged_data
  | NCQuantity =>
      append_mode_guard msg_cannot_overwrite >>
      shape_guard data >>
      unit_guard data >>
      let* length := current_length in
      let* encoder := attribute "_encoder" _coders in
      let* packaged_data := lift (encode_with encoder (Py.strip_unit data)) in
      store_record length packaged_data
  | NCString =>
      append_mode_guard msg_cannot_append >>
      let* length := current_length in
      store_record length (NCStringEncoder data)
  | NCDict => NCDict_bind_append
  end.





(** A method that never returns: in every state it raises. *)
Definition raises {A} (m : M A) : Prop := forall s, exists e, fst (m s) = Raise e.

(* ===================================================================== *)
(** * Facts about the path model *)
(* ===================================================================== *)

Section PathFacts.
Import Path.

Lemma py_split_cons (sep : ascii) (s : string) :
  exists piece pieces, py_split sep s = piece :: pieces.
Proof.
  induction s as [|c rest IH]; simpl.
  - eauto.
  - destruct (Ascii.eqb c sep); [eauto|].
    destruct IH as (p & ps & ->). eauto.
Qed.

Lemma py_split_no_separator (sep : ascii) (s : string) :
  List.Forall (fun piece => ~ In sep (list_ascii_of_string piece)) (py_split sep s).
Proof.
  induction s as [|c rest IH]; simpl.
  - constructor; [intros []|constructor].
  - destruct (Ascii.eqb_spec c sep) as [->|Hne].
    + constructor; [intros []|exact IH].
    + destruct (py_split sep rest) as [|p ps]; simpl.
      * constructor; [|constructor]. simpl. intros [H|[]]. congruence.
      * inversion IH as [|? ? Hp Hps]; subst. constructor; [|exact Hps].
        simpl. intros [H|H]; [congruence|auto].
Qed.

Lemma py_join_split (sep : ascii) (s : string) :
  py_join (String sep EmptyString) (py_split sep s) = s.
Proof.
  induction s as [|c rest IH]; simpl; [reflexivity|].
  destruct (Ascii.eqb_spec c sep) as [->|Hne].
  - destruct (py_split_cons sep rest) as (p & ps & Hs).
    rewrite Hs in *. simpl. simpl in IH. rewrite IH. reflexivity.
  - destruct (py_split sep rest) as [|p ps]; simpl in *.
    + subst. reflexivity.
    + destruct ps; simpl in *; subst; reflexivity.
Qed.

Lemma string_of_list_ascii_snoc (l : list ascii) (c : ascii) (s : string) :
  string_of_list_ascii (l ++ [c])%list ++ s = string_of_list_ascii l ++ String c s.
Proof.
  induction l as [|a l IH]; [reflexivity|].
  change (String a (string_of_list_ascii (l ++ [c])%list ++ s)
          = String a (string_of_list_ascii l ++ String c s)).
  now rewrite IH.
Qed.

Lemma nonempty_rev_string (cur : list ascii) :
  nonempty (string_of_list_ascii (rev cur) ++ "") = match cur with [] => false | _ => true end.
Proof.
  destruct cur as [|c cur]; [reflexivity|]. simpl.
  destruct (rev cur); reflexivity.
Qed.

Lemma string_app_empty (s : string) : s ++ "" = s.
Proof.
  induction s as [|a s IH]; [reflexivity|].
  change (String a (s ++ "") = String a s). now rewrite IH.
Qed.

(** The scanner with an open segment [cur] agrees with splitting and
    filtering, the open segment being glued to the first piece. *)
Lemma scan_segments_split (s : string) (cur : list ascii) :
  scan_segments cur s =
  List.filter nonempty (prepend (string_of_list_ascii (rev cur)) (py_split "/" s)).
Proof.
  revert cur. induction s as [|c rest IH]; intros cur; simpl.
  - rewrite nonempty_rev_string. destruct cur; [reflexivity|].
    now rewrite string_app_empty.
  - destruct (Ascii.eqb c "/").
    + simpl. rewrite nonempty_rev_string, IH. simpl.
      destruct (py_split_cons "/" rest) as (p & ps & ->). simpl.
      destruct cur; [reflexivity|]. now rewrite string_app_empty.
    + rewrite IH. destruct (py_split_cons "/" rest) as (p & ps & ->). simpl.
      now rewrite string_of_list_ascii_snoc.
Qed.

End PathFacts.

(** C9 -- Path decomposition.  [decompose_path] is a total function that
    agrees with the spec's description read as a scanner (split on ['/'],
    discard the empty segments): every segment it returns is non-empty and
    free of ['/'], the split it filters loses nothing of the input, and
    ["///a/b//"] gives [("a", "b")] while ["/"] and [""] give [()]. *)
Theorem decompose_path_segments (path : string) :
  Path.decompose_path path = Path.decompose_spec path /\
  List.Forall (fun segment => segment <> "" /\ ~ In "/"%char (list_ascii_of_string segment))
              (Path.decompose_path path) /\
  Path.py_join "/" (Path.py_split "/" path) = path /\
  Path.decompose_path "///a/b//" = ["a"; "b"] /\
  Path.decompose_path "/" = [] /\
  Path.decompose_path "" = [].
Proof.
  repeat split.
  - unfold Path.decompose_spec, Path.decompose_path. rewrite scan_segments_split. simpl.
    now destruct (py_split_cons "/" path) as (p & ps & ->).
  - unfold Path.decompose_path. apply List.Forall_forall. intros seg Hin.
    apply List.filter_In in Hin as [Hin Hne]. split.
    + destruct seg; [discriminate|congruence].
    + pose proof (py_split_no_separator "/" path) as H.
      rewrite List.Forall_forall in H. now apply H.
  - apply py_join_split.
Qed.

(* ===================================================================== *)
(** * Facts about the method monad *)
(* ===================================================================== *)

Section MonadFacts.
Context {A B : Type}.

Lemma bind_returns (m : M A) (k : A -> M B) (s s1 : state) (a : A) :
  m s = (Return a, s1) -> bind m k s = k a s1.
Proof. unfold bind. now intros ->. Qed.

Lemma bind_raises (m : M A) (k : A -> M B) (s s1 : state) (e : exn) :
  m s = (Raise e, s1) -> bind m k s = (Raise e, s1).
Proof. unfold bind. now intros ->. Qed.

(** A sequence that returns went through both of its halves. *)
Lemma bind_Return_inv (m : M A) (k : A -> M B) (s s' : state) (b : B) :
  bind m k s = (Return b, s') ->
  exists a s1, m s = (Return a, s1) /\ k a s1 = (Return b, s').
Proof.
  unfold bind. destruct (m s) as [[a|e] s1]; intros H.
  - eauto.
  - discriminate.
Qed.

End MonadFacts.

Section Keeps.
Variable P : handler -> Prop.

Lemma keeps_ret {A} (a : A) : keeps P (ret a).
Proof. intros s H. exact H. Qed.

Lemma keeps_raise {A} (e : exn) : keeps P (@raise A e).
Proof. intros s H. exact H. Qed.

Lemma keeps_lift {A} (o : outcome A) : keeps P (lift o).
Proof. intros s H. exact H. Qed.

Lemma keeps_get_self : keeps P get_self.
Proof. intros s H. exact H. Qed.

Lemma keeps_get_file : keeps P get_file.
Proof. intros s H. exact H. Qed.

Lemma keeps_set_file (ds : NC.dataset) : keeps P (set_file ds).
Proof. intros s H. exact H. Qed.

Lemma keeps_warn (msg : string) : keeps P (warn msg).
Proof. intros s H. exact H. Qed.

Lemma keeps_update_self (f : handler -> handler) :
  (forall h, P h -> P (f h)) -> keeps P (update_self f).
Proof. intros Hf s H. simpl. auto. Qed.

Lemma keeps_bind {A B} (m : M A) (k : A -> M B) :
  keeps P m -> (forall a, keeps P (k a)) -> keeps P (bind m k).
Proof.
  intros Hm Hk s H. unfold bind.
  specialize (Hm s H). destruct (m s) as [[a|e] s1]; simpl in *.
  - now apply Hk.
  - exact Hm.
Qed.

Lemma keeps_try_except {A} (body handler : M A) (catches : exn -> bool) :
  keeps P body -> keeps P handler -> keeps P (try_except body catches handler).
Proof.
  intros Hb Hh s H. unfold try_except.
  specialize (Hb s H). destruct (body s) as [[a|e] s1]; simpl in *.
  - exact Hb.
  - destruct (catches e); simpl; auto.
Qed.

End Keeps.

(** Decomposes a goal [keeps P m] along the structure of [m]. *)
Ltac keeps_step :=
  match goal with
  | |- keeps _ (bind _ _) => apply keeps_bind; [|intros ?]
  | |- keeps _ (try_except _ _ _) => apply keeps_try_except
  | |- keeps _ (ret _) => apply keeps_ret
  | |- keeps _ (raise _) => apply keeps_raise
  | |- keeps _ (lift _) => apply keeps_lift
  | |- keeps _ get_self => apply keeps_get_self
  | |- keeps _ get_file => apply keeps_get_file
  | |- keeps _ (set_file _) => apply keeps_set_file
  | |- keeps _ (warn _) => apply keeps_warn
  | |- keeps _ (update_self _) => apply keeps_update_self; intros ? ?
  | |- keeps _ (if ?b then _ else _) => destruct b
  | |- keeps _ (match ?x with _ => _ end) => destruct x
  | |- keeps _ (let '(_, _) := ?x in _) => destruct x
  end.

Ltac keeps_tac := repeat (keeps_step; try assumption; try discriminate).

Create HintDb keeps_db.

(** The lemmas of this section hold for every property of a handler that
    the assignments the methods make do not break. *)
Section Invariants.
Variable P : handler -> Prop.
Hypothesis P_stable : stable P.

Local Ltac go :=
  intros; keeps_tac; auto with keeps_db;
  try (destruct P_stable as (S1 & S2 & S3 & S4 & S5 & S6 & S7 & S8); now auto).

Lemma keeps_attribute {X} (name : string) (field : handler -> option X) :
  keeps P (attribute name field).
Proof. unfold attribute. go. Qed.

Lemma keeps_bound_target : keeps P bound_target.
Proof. unfold bound_target. go. Qed.

Lemma keeps_check_scalar_dimension : keeps P check_scalar_dimension.
Proof. unfold check_scalar_dimension. go. Qed.

Lemma keeps_check_infinite_dimension : keeps P check_infinite_dimension.
Proof. unfold check_infinite_dimension. go. Qed.

Lemma keeps_check_iterable_dimension (length : value) :
  keeps P (check_iterable_dimension length).
Proof. unfold check_iterable_dimension. go. Qed.

Lemma keeps_not_bound_target : keeps P not_bound_target.
Proof. unfold not_bound_target. go. Qed.

Lemma keeps_add_metadata (name : string) (a : value) :
  keeps P (add_metadata name a).
Proof.
  unfold add_metadata. pose proof keeps_not_bound_target. pose proof keeps_bound_target.
  go.
Qed.

Lemma keeps_dump : keeps P _dump_metadata_buffer.
Proof.
  unfold _dump_metadata_buffer. pose proof keeps_not_bound_target.
  pose proof keeps_bound_target. go.
Qed.

Hint Resolve keeps_attribute keeps_bound_target
  keeps_check_scalar_dimension keeps_check_infinite_dimension
  keeps_check_iterable_dimension keeps_add_metadata
  keeps_dump : keeps_db.

Lemma keeps_check_write_append : keeps P _check_write_append.
Proof. unfold _check_write_append. go. Qed.

Lemma keeps_attempt_storage_read : keeps P _attempt_storage_read.
Proof. unfold _attempt_storage_read, str_foramt. go. Qed.

Hint Resolve keeps_check_write_append keeps_attempt_storage_read : keeps_db.

Lemma keeps_createVariable (datatype : value) (dims : list string) :
  keeps P (createVariable datatype dims).
Proof. unfold createVariable. go. Qed.

Lemma keeps_stamp (a b : value) (z : Z) : keeps P (stamp a b z).
Proof. unfold stamp. go. Qed.

Lemma keeps_iterable_dimensions (lengths : list Z) :
  keeps P (iterable_dimensions lengths).
Proof. induction lengths; simpl; go. Qed.

Lemma keeps_shaped_bind_read : keeps P shaped_bind_read.
Proof. unfold shaped_bind_read. go. Qed.

Hint Resolve keeps_createVariable keeps_stamp
  keeps_iterable_dimensions keeps_shaped_bind_read : keeps_db.

Lemma keeps_write_mode_guard : keeps P write_mode_guard.
Proof. unfold write_mode_guard. go. Qed.

Lemma keeps_append_mode_guard (msg : string) : keeps P (append_mode_guard msg).
Proof. unfold append_mode_guard. go. Qed.

Lemma keeps_shape_guard (data : value) : keeps P (shape_guard data).
Proof. unfold shape_guard. go. Qed.

Lemma keeps_store_all (data : value) : keeps P (store_all data).
Proof. unfold store_all. go. Qed.

Lemma keeps_current_length : keeps P current_length.
Proof. unfold current_length. go. Qed.

Lemma keeps_store_record (n : Z) (data : value) : keeps P (store_record n data).
Proof. unfold store_record. go. Qed.

Hint Resolve keeps_write_mode_guard keeps_append_mode_guard
  keeps_shape_guard keeps_store_all keeps_current_length
  keeps_store_record : keeps_db.

Lemma keeps_set_codifiers (stype : value) : keeps P (_set_codifiers stype).
Proof. unfold _set_codifiers. go. Qed.

Lemma keeps_NCQuantity_bind_read : keeps P NCQuantity_bind_read.
Proof. unfold NCQuantity_bind_read. pose proof keeps_set_codifiers. go. Qed.

Lemma keeps_NCQuantity_create (leading : list string) (z : Z) (data : value) :
  keeps P (NCQuantity_create leading z data).
Proof.
  unfold NCQuantity_create, NCQuantity_determine_data_information. go.
Qed.

Hint Resolve keeps_set_codifiers keeps_NCQuantity_bind_read
  keeps_NCQuantity_create : keeps_db.

Lemma keeps_NCArray_bind_write (data : value) : keeps P (NCArray_bind_write data).
Proof.
  unfold NCArray_bind_write, NCArray_bind_read, NCArray_determine_data_information. go.
Qed.

Lemma keeps_NCArray_bind_append (data : value) : keeps P (NCArray_bind_append data).
Proof.
  unfold NCArray_bind_append, NCArray_bind_read, NCArray_determine_data_information. go.
Qed.

Lemma keeps_number_bind_write (t : pytype) (data : value) :
  keeps P (number_bind_write t data).
Proof. unfold number_bind_write. go. Qed.

Lemma keeps_number_bind_append (t : pytype) (data : value) :
  keeps P (number_bind_append t data).
Proof. unfold number_bind_append. go. Qed.

Lemma keeps_NCIterable_bind_write (data : value) :
  keeps P (NCIterable_bind_write data).
Proof.
  unfold NCIterable_bind_write, NCIterable_bind_read, NCIterable_determine_data_information.
  go.
Qed.

Lemma keeps_NCIterable_bind_append (data : value) :
  keeps P (NCIterable_bind_append data).
Proof.
  unfold NCIterable_bind_append, NCIterable_bind_read, NCIterable_determine_data_information.
  go.
Qed.

Lemma keeps_NCQuantity_bind_write (data : value) :
  keeps P (NCQuantity_bind_write data).
Proof. unfold NCQuantity_bind_write, use_data_type_name. go. Qed.

Lemma keeps_NCQuantity_bind_append (data : value) :
  keeps P (NCQuantity_bind_append data).
Proof. unfold NCQuantity_bind_append, use_data_type_name. go. Qed.

Lemma keeps_NCString_bind_write : keeps P NCString_bind_write.
Proof. unfold NCString_bind_write, NCString_bind_read. go. Qed.

Lemma keeps_NCString_bind_append : keeps P NCString_bind_append.
Proof. unfold NCString_bind_append, NCString_bind_read. go. Qed.

Lemma keeps_NCDict_bind_write : keeps P NCDict_bind_write.
Proof. unfold NCDict_bind_write, NCDict_bind_read, createGroup_target. go. Qed.

Hint Resolve keeps_NCArray_bind_write keeps_NCArray_bind_append
  keeps_number_bind_write keeps_number_bind_append
  keeps_NCIterable_bind_write keeps_NCIterable_bind_append
  keeps_NCQuantity_bind_write keeps_NCQuantity_bind_append
  keeps_NCString_bind_write keeps_NCString_bind_append
  keeps_NCDict_bind_write : keeps_db.

Lemma keeps_bind_read : keeps P _bind_read.
Proof.
  unfold _bind_read, NCArray_bind_read, NCFloat_bind_read, NCInt_bind_read,
    NCIterable_bind_read, NCString_bind_read, NCDict_bind_read.
  go.
Qed.

Lemma keeps_encode_entries (g : list string) (entries : list (string * value)) :
  keeps P (encode_entries g entries).
Proof.
  induction entries as [|[name datum] rest IH]; simpl; [go|].
  apply keeps_bind; [|intros _; exact IH].
  unfold encode_entry, store_entry. go.
Qed.

Hint Resolve keeps_bind_read keeps_encode_entries : keeps_db.

Lemma keeps_write (data : value) : keeps P (write data).
Proof.
  unfold write, NCArray_write, NCFloat_write, NCInt_write, NCIterable_write,
    NCQuantity_write, NCString_write, NCDict_write, number_write, unit_guard,
    _encode_dict.
  go.
Qed.

Lemma keeps_append (data : value) : keeps P (append data).
Proof.
  unfold append, NCArray_append, NCFloat_append, NCInt_append, NCIterable_append,
    NCQuantity_append, NCString_append, NCDict_append, NCDict_bind_append,
    number_append, unit_guard.
  go.
Qed.

Lemma keeps_read_prologue : keeps P (read_prologue _bind_read).
Proof. unfold read_prologue. go. Qed.

Lemma keeps_run_method (m : method) : keeps P (run_method m).
Proof.
  destruct m; simpl;
    auto using keeps_write, keeps_append, keeps_read_prologue
    with keeps_db.
Qed.

Lemma keeps_bind_write (data : value) : keeps P (_bind_write data).
Proof.
  unfold _bind_write, NCFloat_bind_write, NCInt_bind_write. go.
Qed.

Lemma keeps_bind_append (data : value) : keeps P (_bind_append data).
Proof.
  unfold _bind_append, NCFloat_bind_append, NCInt_bind_append, NCDict_bind_append. go.
Qed.

End Invariants.

Lemma never_w_new (c : handler_class) (target : string) (g : list string) :
  never_w (new_handler c target g).
Proof. discriminate. Qed.

(** [_check_write_append] is the only assignment to [_output_mode], and it
    assigns ['a'] or ['r']: the property survives every assignment. *)
Lemma never_w_stable : stable never_w.
Proof. unfold stable, never_w. repeat apply conj; intros; simpl; try assumption; discriminate. Qed.


(** Whatever is done to a handler, its output mode is never ['w']. *)
Lemma reachable_never_w (s : state) : reachable s -> never_w (self s).
Proof.
  induction 1 as [c target g ds w|s m _ IH|s ds w _ IH].
  - apply never_w_new.
  - now apply (keeps_run_method never_w never_w_stable).
  - exact IH.
Qed.

(* ===================================================================== *)
(** * The output mode and the write guard *)
(* ===================================================================== *)

(** The array and the sequence handler apply [isinstance] to [type(data)],
    a class object: no value passes. *)
Lemma type_gate_array_iterable (c : handler_class) (data : value) :
  c = NCArray \/ c = NCIterable -> type_gate c data = false.
Proof. intros [-> | ->]; reflexivity. Qed.

Lemma check_write_append_modes (s s' : state) (u : unit) :
  _check_write_append s = (Return u, s') ->
  _output_mode (self s') = Some "a" \/ _output_mode (self s') = Some "r".
Proof.
  unfold _check_write_append, bound_target, bind, get_self, get_file, lift, raise, ret.
  destruct (_bound_target (self s)) as [r|]; [|discriminate].
  destruct (NC.getncattr (ncfile s) r "IODriver_Appendable") as [a|e]; [|discriminate].
  unfold update_self. destruct (Py.truthy a); intros H; inversion H; subst; simpl; auto.
Qed.

Lemma write_mode_guard_raises (s : state) :
  never_w (self s) ->
  write_mode_guard s = (Raise (TypeError msg_cannot_overwrite), s).
Proof.
  intros H. unfold write_mode_guard, bind, get_self.
  now rewrite bool_decide_eq_true_2.
Qed.

(** On a bound handler [write] is its type test followed by its mode guard. *)
Lemma write_bound (s : state) (data : value) :
  never_w (self s) ->
  class (self s) <> NCDict ->
  is_unbound (self s) = false ->
  write data s =
  (if type_gate (class (self s)) data
   then Raise (TypeError msg_cannot_overwrite)
   else Raise TypeMismatch, s).
Proof.
  intros Hw Hc Hb.
  pose proof (write_mode_guard_raises s Hw) as Hg.
  unfold write, bind at 1, get_self at 1.
  destruct (class (self s)) eqn:Hclass; try congruence; clear Hc;
    unfold NCArray_write, NCFloat_write, NCInt_write, NCIterable_write,
      NCQuantity_write, NCString_write, number_write, type_gate;
    match goal with |- context [negb ?g] => destruct g end; simpl; try reflexivity;
    unfold bind at 1, get_self at 1; rewrite Hb;
    unfold bind at 1, ret at 1; unfold bind at 1; rewrite Hg; reflexivity.
Qed.

(** C10 -- Implicit output-mode invariant.  When [_check_write_append]
    returns it has set [_output_mode] to ['a'] or to ['r']; no history of
    calls on a handler makes the mode ['w']; so on every bound handler other
    than the record handler the mode guard of [write] raises its
    cannot-overwrite error, and [write] stores nothing whatever the value:
    the value is turned away by the type test or, having passed it, by the
    guard. *)
Theorem output_mode_never_w (s : state) (data : value) :
  reachable s ->
  class (self s) <> NCDict ->
  is_unbound (self s) = false ->
  (forall u s', _check_write_append s = (Return u, s') ->
     _output_mode (self s') = Some "a" \/ _output_mode (self s') = Some "r") /\
  _output_mode (self s) <> Some "w" /\
  write_mode_guard s = (Raise (TypeError msg_cannot_overwrite), s) /\
  write data s =
  (if type_gate (class (self s)) data
   then Raise (TypeError msg_cannot_overwrite)
   else Raise TypeMismatch, s).
Proof.
  intros Hr Hc Hb. pose proof (reachable_never_w s Hr) as Hw.
  repeat split.
  - intros u s'. apply check_write_append_modes.
  - exact Hw.
  - now apply write_mode_guard_raises.
  - now apply write_bound.
Qed.


Lemma output_mode_never_w_witness :
  let s := snd (run_method do_read (fresh NCInt "count" on_file)) in
  reachable s /\ class (self s) <> NCDict /\ is_unbound (self s) = false /\
  fst (write (VInt 7) s) = Raise (TypeError msg_cannot_overwrite).
Proof.
  intros s.
  assert (Hr : reachable s) by apply reachable_call, reachable_new.
  assert (Hc : class (self s) <> NCDict) by (vm_compute; discriminate).
  assert (Hb : is_unbound (self s) = false) by (vm_compute; reflexivity).
  split; [exact Hr|]. split; [exact Hc|]. split; [exact Hb|].
  destruct (output_mode_never_w s (VInt 7) Hr Hc Hb) as (_ & _ & _ & Hwrite).
  rewrite Hwrite. vm_compute. reflexivity.
Defined.

(* ===================================================================== *)
(** * Binding: the lookup and what follows it *)
(* ===================================================================== *)

(** Evaluates a goal that is a conjunction of equations between closed
    terms, under local definitions: the left-hand sides are computed
    together, so that what the equations share is computed once. *)
Ltac equations G :=
  lazymatch G with
  | (?a = ?b) /\ ?R =>
      let t := equations R in
      lazymatch t with
      | (?l, ?r) => constr:(((a, l), (b, r)))
      end
  | ?a = ?b => constr:((a, b))
  end.

Ltac evaluate :=
  intros;
  lazymatch goal with
  | |- ?G =>
      let t := equations G in
      lazymatch t with
      | (?l, ?r) =>
          let H := fresh "H" in
          assert (H : l = r)
            by (repeat match goal with x := _ |- _ => revert x end;
                vm_compute; reflexivity);
          repeat apply conj; congruence
      end
  end.

Lemma bind_get_self {A} (k : handler -> M A) (s : state) :
  bind get_self k s = k (self s) s.
Proof. reflexivity. Qed.

Lemma try_except_caught {A} (body handler : M A) (catches : exn -> bool)
    (s s1 : state) (e : exn) :
  body s = (Raise e, s1) -> catches e = true ->
  try_except body catches handler s = handler s1.
Proof. unfold try_except. intros -> ->. reflexivity. Qed.

Lemma try_except_passes {A} (body handler : M A) (catches : exn -> bool)
    (s s1 : state) (e : exn) :
  body s = (Raise e, s1) -> catches e = false ->
  try_except body catches handler s = (Raise e, s1).
Proof. unfold try_except. intros -> ->. reflexivity. Qed.

Lemma try_except_returns {A} (body handler : M A) (catches : exn -> bool)
    (s s1 : state) (a : A) :
  body s = (Return a, s1) -> try_except body catches handler s = (Return a, s1).
Proof. unfold try_except. now intros ->. Qed.

(** Splits a hypothesis [H : bind m k s = (Return b, s')] into
    [E : m s = (Return a, s1)] and [H : k a s1 = (Return b, s')]. *)
Tactic Notation "split_bind" hyp(H) "as" ident(a) ident(s1) ident(E) :=
  apply bind_Return_inv in H; destruct H as (a & s1 & E & H).

(** The lookup of the read-bind comes first: when it raises, the read-bind
    raises the same error and nothing has changed. *)
Lemma attempt_storage_read_raises (s : state) (e : exn) :
  target_lookup s = Raise e -> _attempt_storage_read s = (Raise e, s).
Proof.
  unfold target_lookup. intros H.
  unfold _attempt_storage_read, bind, get_self, get_file, lift. now rewrite H.
Qed.

Lemma getncattr_raises (ds : NC.dataset) (r : NC.objref) (name : string) (e : exn) :
  NC.getncattr ds r name = Raise e -> e = AttributeError "NetCDF: Attribute not found".
Proof. unfold NC.getncattr. case_match; intros; simplify_eq. reflexivity. Qed.

(** When the lookup finds an object the read-bind binds to it and returns,
    with a warning if the object carries no type tag or another one. *)
Lemma attempt_storage_read_found (s : state) (r : NC.objref) :
  target_lookup s = Return r ->
  exists w, _attempt_storage_read s =
            (Return tt, {| ncfile := ncfile s; self := set_bound_target r (self s);
                           warnings := w |}).
Proof.
  unfold target_lookup. intros H.
  unfold _attempt_storage_read, bind, get_self, get_file, lift, update_self, try_except,
    str_foramt, raise, ret, warn.
  rewrite H. cbn [ncfile self warnings].
  destruct (NC.getncattr (ncfile s) r "IODriver_Type") as [tag|e] eqn:Htag.
  - destruct (differs_from_string tag _); cbn; eauto.
  - apply getncattr_raises in Htag as ->. cbn. eauto.
Qed.

Lemma shaped_bind_read_raises (s : state) (e : exn) :
  target_lookup s = Raise e -> shaped_bind_read s = (Raise e, s).
Proof.
  intros H. unfold shaped_bind_read.
  now rewrite (bind_raises _ _ _ _ _ (attempt_storage_read_raises s e H)).
Qed.

Lemma NCQuantity_bind_read_raises (s : state) (e : exn) :
  target_lookup s = Raise e -> NCQuantity_bind_read s = (Raise e, s).
Proof.
  intros H. unfold NCQuantity_bind_read.
  now rewrite (bind_raises _ _ _ _ _ (attempt_storage_read_raises s e H)).
Qed.

Lemma bind_read_raises (s : state) (e : exn) :
  target_lookup s = Raise e -> _bind_read s = (Raise e, s).
Proof.
  intros H. unfold _bind_read. rewrite bind_get_self.
  destruct (class (self s));
    unfold NCArray_bind_read, NCFloat_bind_read, NCInt_bind_read, NCIterable_bind_read,
      NCString_bind_read, NCDict_bind_read;
    first [exact (shaped_bind_read_raises s e H)
          |exact (NCQuantity_bind_read_raises s e H)
          |exact (attempt_storage_read_raises s e H)].
Qed.

(** Every [_bind_write] and [_bind_append] catches [KeyError] and nothing
    else: any other error of the lookup, the [IndexError] of a name that is
    not on file among them, ends the bind with nothing created and the
    handler as it was. *)
Lemma bind_write_raises (s : state) (e : exn) (data : value) :
  target_lookup s = Raise e -> is_KeyError e = false ->
  _bind_write data s = (Raise e, s).
Proof.
  intros H He.
  pose proof (shaped_bind_read_raises s e H) as Hshaped.
  pose proof (attempt_storage_read_raises s e H) as Hattempt.
  assert (Hquantity : bind NCQuantity_bind_read (fun _ => ret (@None string)) s = (Raise e, s))
    by now rewrite (bind_raises _ _ _ _ _ (NCQuantity_bind_read_raises s e H)).
  unfold _bind_write. rewrite bind_get_self.
  destruct (class (self s));
    unfold NCArray_bind_write, NCFloat_bind_write, NCInt_bind_write, number_bind_write,
      NCIterable_bind_write, NCQuantity_bind_write, NCString_bind_write, NCDict_bind_write,
      NCArray_bind_read, NCIterable_bind_read, NCString_bind_read, NCDict_bind_read;
    first [now rewrite (bind_raises _ _ _ _ _ (try_except_passes _ _ _ _ _ _ Hshaped He))
          |now rewrite (bind_raises _ _ _ _ _ (try_except_passes _ _ _ _ _ _ Hattempt He))
          |now rewrite (bind_raises _ _ _ _ _ (try_except_passes _ _ _ _ _ _ Hquantity He))].
Qed.

Lemma bind_append_raises (s : state) (e : exn) (data : value) :
  class (self s) <> NCDict ->
  target_lookup s = Raise e -> is_KeyError e = false ->
  _bind_append data s = (Raise e, s).
Proof.
  intros Hc H He.
  pose proof (shaped_bind_read_raises s e H) as Hshaped.
  pose proof (attempt_storage_read_raises s e H) as Hattempt.
  assert (Hquantity : bind NCQuantity_bind_read (fun _ => ret (@None string)) s = (Raise e, s))
    by now rewrite (bind_raises _ _ _ _ _ (NCQuantity_bind_read_raises s e H)).
  unfold _bind_append. rewrite bind_get_self.
  destruct (class (self s)); try congruence;
    unfold NCArray_bind_append, NCFloat_bind_append, NCInt_bind_append, number_bind_append,
      NCIterable_bind_append, NCQuantity_bind_append, NCString_bind_append,
      NCArray_bind_read, NCIterable_bind_read, NCString_bind_read;
    first [now rewrite (bind_raises _ _ _ _ _ (try_except_passes _ _ _ _ _ _ Hshaped He))
          |now rewrite (bind_raises _ _ _ _ _ (try_except_passes _ _ _ _ _ _ Hattempt He))
          |now rewrite (bind_raises _ _ _ _ _ (try_except_passes _ _ _ _ _ _ Hquantity He))].
Qed.

(** A [write] or an [append] that has to bind ends where its bind ends when
    the bind raises. *)
Lemma write_bind_raises (s s1 : state) (e : exn) (data : value) :
  is_unbound (self s) = true ->
  type_gate (class (self s)) data = true ->
  _bind_write data s = (Raise e, s1) ->
  write data s = (Raise e, s1).
Proof.
  intros Hu Hg Hbind.
  unfold _bind_write in Hbind. rewrite bind_get_self in Hbind.
  unfold write. rewrite bind_get_self.
  destruct (class (self s)) eqn:Hclass;
    unfold NCArray_write, NCFloat_write, NCInt_write, NCIterable_write,
      NCQuantity_write, NCString_write, NCDict_write, number_write; unfold type_gate in Hg;
    rewrite ?Hg; change (negb true) with false; cbv iota;
    rewrite bind_get_self, Hu;
    unfold NCFloat_bind_write, NCInt_bind_write in Hbind;
    now rewrite (bind_raises _ _ _ _ _ Hbind).
Qed.

Lemma append_bind_raises (s s1 : state) (e : exn) (data : value) :
  class (self s) <> NCDict ->
  is_unbound (self s) = true ->
  type_gate (class (self s)) data = true ->
  (match class (self s) with
   | NCArray | NCIterable => _bind_write data s
   | _ => _bind_append data s
   end) = (Raise e, s1) ->
  append data s = (Raise e, s1).
Proof.
  intros Hc Hu Hg Hbind.
  unfold _bind_append, _bind_write in Hbind. rewrite !bind_get_self in Hbind.
  unfold append. rewrite bind_get_self.
  destruct (class (self s)) eqn:Hclass; try congruence;
    unfold NCArray_append, NCFloat_append, NCInt_append, NCIterable_append,
      NCQuantity_append, NCString_append, number_append; unfold type_gate in Hg;
    rewrite ?Hg; change (negb true) with false; cbv iota;
    rewrite bind_get_self, Hu;
    unfold NCFloat_bind_append, NCInt_bind_append in Hbind;
    now rewrite (bind_raises _ _ _ _ _ Hbind).
Qed.

Lemma read_prologue_raises (s s1 : state) (e : exn) (m : M unit) :
  is_unbound (self s) = true ->
  m s = (Raise e, s1) ->
  read_prologue m s = (Raise e, s1).
Proof.
  intros Hu H. unfold read_prologue. rewrite bind_get_self, Hu.
  now rewrite (bind_raises _ _ _ _ _ H).
Qed.

(** On a path where the lookup finds nothing, [write], [append] and
    [read] raise the error of the lookup and change nothing. *)
Lemma write_lookup_raises (s : state) (e : exn) (data : value) :
  is_unbound (self s) = true ->
  type_gate (class (self s)) data = true ->
  target_lookup s = Raise e -> is_KeyError e = false ->
  write data s = (Raise e, s).
Proof.
  intros Hu Hg H He. apply write_bind_raises; try assumption.
  now apply bind_write_raises.
Qed.

Lemma append_lookup_raises (s : state) (e : exn) (data : value) :
  class (self s) <> NCDict ->
  is_unbound (self s) = true ->
  type_gate (class (self s)) data = true ->
  target_lookup s = Raise e -> is_KeyError e = false ->
  append data s = (Raise e, s).
Proof.
  intros Hc Hu Hg H He. apply append_bind_raises; try assumption.
  destruct (class (self s)) eqn:Hclass; try congruence;
    first [now apply bind_write_raises
          |apply bind_append_raises; [rewrite Hclass; discriminate|assumption..]].
Qed.

Lemma read_lookup_raises (s : state) (e : exn) :
  is_unbound (self s) = true ->
  target_lookup s = Raise e ->
  read_prologue _bind_read s = (Raise e, s).
Proof.
  intros Hu H. apply read_prologue_raises; [exact Hu|]. now apply bind_read_raises.
Qed.

(** The dimension helpers change the file only. *)
Lemma check_scalar_dimension_returns (s : state) :
  exists ds, check_scalar_dimension s =
             (Return tt, {| ncfile := ds; self := self s; warnings := warnings s |}).
Proof.
  destruct s as [ds h w]. unfold check_scalar_dimension, bind, get_file, set_file, ret.
  cbn [ncfile self warnings]. destruct (negb _); eauto.
Qed.

Lemma check_infinite_dimension_returns (s : state) :
  exists ds, check_infinite_dimension s =
             (Return tt, {| ncfile := ds; self := self s; warnings := warnings s |}).
Proof.
  destruct s as [ds h w]. unfold check_infinite_dimension, bind, get_file, set_file, ret.
  cbn [ncfile self warnings]. destruct (negb _); eauto.
Qed.

(** When the lookup raises [KeyError] (a group on the way to the target is
    missing) the bind enters its creation branch, and the branch ends at its
    [createVariable] call: the handler is as it was, still unbound, and
    only dimensions have been added to the file. *)
Lemma scalar_bind_creates_nothing (appendable : bool) (s : state) (m : string)
    (data : value) :
  scalar_class (class (self s)) = true ->
  target_lookup s = Raise (KeyError m) ->
  exists ds,
    (if appendable then _bind_append data s else _bind_write data s) =
    (Raise (TypeError msg_chunksize),
     {| ncfile := ds; self := self s; warnings := warnings s |}).
Proof.
  intros Hc H.
  pose proof (shaped_bind_read_raises s _ H) as Hshaped.
  pose proof (attempt_storage_read_raises s _ H) as Hattempt.
  destruct (check_scalar_dimension_returns s) as (ds1 & E1).
  destruct (check_infinite_dimension_returns
              {| ncfile := ds1; self := self s; warnings := warnings s |}) as (ds2 & E2).
  cbn [self warnings] in E2.
  destruct appendable; [exists ds2|exists ds1];
    unfold _bind_append, _bind_write; rewrite bind_get_self;
    destruct (class (self s)); try discriminate;
    unfold NCFloat_bind_append, NCInt_bind_append, number_bind_append, NCString_bind_append,
      NCFloat_bind_write, NCInt_bind_write, number_bind_write, NCString_bind_write,
      NCString_bind_read;
    (apply bind_raises;
     first [rewrite (try_except_caught _ _ _ _ _ _ Hshaped eq_refl)
           |rewrite (try_except_caught _ _ _ _ _ _ Hattempt eq_refl)];
     rewrite (bind_returns _ _ _ _ _ E1);
     rewrite ?(bind_returns _ _ _ _ _ E2);
     reflexivity).
Qed.

Lemma write_creates_nothing (s : state) (m : string) (data : value) :
  is_unbound (self s) = true ->
  scalar_class (class (self s)) = true ->
  type_gate (class (self s)) data = true ->
  target_lookup s = Raise (KeyError m) ->
  fst (write data s) = Raise (TypeError msg_chunksize) /\
  self (snd (write data s)) = self s.
Proof.
  intros Hu Hc Hg H.
  destruct (scalar_bind_creates_nothing false s m data Hc H) as (ds & E).
  rewrite (write_bind_raises _ _ _ _ Hu Hg E). split; reflexivity.
Qed.

Lemma append_creates_nothing (s : state) (m : string) (data : value) :
  is_unbound (self s) = true ->
  scalar_class (class (self s)) = true ->
  type_gate (class (self s)) data = true ->
  target_lookup s = Raise (KeyError m) ->
  fst (append data s) = Raise (TypeError msg_chunksize) /\
  self (snd (append data s)) = self s.
Proof.
  intros Hu Hc Hg H.
  destruct (scalar_bind_creates_nothing true s m data Hc H) as (ds & E).
  assert (Hd : class (self s) <> NCDict) by (intros K; rewrite K in Hc; discriminate).
  rewrite (append_bind_raises s {| ncfile := ds; self := self s; warnings := warnings s |}
             (TypeError msg_chunksize) data Hd Hu Hg); [split; reflexivity|].
  destruct (class (self s)); try discriminate; exact E.
Qed.

(* ===================================================================== *)
(** * Round trip *)
(* ===================================================================== *)

(** Whatever precedes the mode guard of [write], the guard ends the call. *)
Lemma raises_at_write_mode_guard {A} (m : M A) (k : M unit) (s : state) :
  keeps never_w m -> never_w (self s) ->
  exists e, fst (bind m (fun _ => bind write_mode_guard (fun _ => k)) s) = Raise e.
Proof.
  intros Hm Hs. specialize (Hm s Hs). unfold bind at 1.
  destruct (m s) as [[a|e] s1]; simpl in *; [|eauto].
  unfold bind. rewrite (write_mode_guard_raises s1 Hm). simpl. eauto.
Qed.

Lemma keeps_bind_if_unbound (h : handler) (m : M unit) :
  keeps never_w m -> keeps never_w (if is_unbound h then m else ret tt).
Proof. intros Hm. destruct (is_unbound h); [exact Hm|apply keeps_ret]. Qed.

(** No [write] on a handler other than the record handler returns. *)
Lemma write_raises (s : state) (x : value) :
  never_w (self s) -> class (self s) <> NCDict ->
  exists e, fst (write x s) = Raise e.
Proof.
  intros Hw Hc. unfold write, bind at 1, get_self at 1.
  destruct (class (self s)) eqn:Hclass; try congruence; clear Hc;
    unfold NCArray_write, NCFloat_write, NCInt_write, NCIterable_write,
      NCQuantity_write, NCString_write, number_write;
    match goal with |- context [negb ?g] => destruct g end; simpl; eauto;
    unfold bind at 1, get_self at 1;
    apply raises_at_write_mode_guard; try assumption;
    apply keeps_bind_if_unbound.
  - apply (keeps_NCArray_bind_write never_w never_w_stable).
  - apply (keeps_number_bind_write never_w never_w_stable).
  - apply (keeps_number_bind_write never_w never_w_stable).
  - apply (keeps_NCIterable_bind_write never_w never_w_stable).
  - apply (keeps_NCQuantity_bind_write never_w never_w_stable).
  - apply (keeps_NCString_bind_write never_w never_w_stable).
Qed.

(** C1 -- Round trip (the code does not do it).  A [write] never returns,
    on any handler of the six kinds in any state it can reach.  On a path
    where no object exists the lookup of the bind raises [IndexError],
    which the bind does not catch: [write] and [read] raise it, nothing is
    created and the handler stays as it was.  If the lookup raises
    [KeyError] instead, the creation branch is entered and ends at its
    [createVariable] call, with the handler as it was again.  At the
    representative values, on handlers made for the path [x] of an empty
    file: the integer, the float, the string and the quantity raise the
    [IndexError] of the lookup, in [write] and in [read], the array and the
    sequence are turned away by the type test.  Where the object exists
    (the integer [count], which holds [42]) the bind returns and the mode
    guard of [write] raises: [write(7)] stores nothing and [read()] still
    gives [42]. *)
Theorem round_trip_write_raises (s : state) (x : value) :
  reachable s ->
  class (self s) <> NCDict ->
  (exists e, fst (write x s) = Raise e) /\
  (forall e, is_unbound (self s) = true ->
     type_gate (class (self s)) x = true ->
     target_lookup s = Raise e -> is_KeyError e = false ->
     write x s = (Raise e, s) /\ read_prologue _bind_read s = (Raise e, s)) /\
  (forall m, is_unbound (self s) = true ->
     scalar_class (class (self s)) = true ->
     type_gate (class (self s)) x = true ->
     target_lookup s = Raise (KeyError m) ->
     fst (write x s) = Raise (TypeError msg_chunksize) /\
     self (snd (write x s)) = self s) /\
  (let s0 := fresh NCInt "x" NC.new_dataset in
   write (VInt 42) s0 = (Raise (IndexError NC.msg_not_found), s0) /\
   NCInt_read s0 = (Raise (IndexError NC.msg_not_found), s0)) /\
  (let s0 := fresh NCFloat "x" NC.new_dataset in
   write (VFloat (7 # 2)) s0 = (Raise (IndexError NC.msg_not_found), s0) /\
   NCFloat_read s0 = (Raise (IndexError NC.msg_not_found), s0)) /\
  (let s0 := fresh NCString "x" NC.new_dataset in
   write (VStr "abc") s0 = (Raise (IndexError NC.msg_not_found), s0) /\
   NCString_read s0 = (Raise (IndexError NC.msg_not_found), s0)) /\
  (let s0 := fresh NCQuantity "x" NC.new_dataset in
   write (VQuantity (VInt 300) "kelvin") s0 = (Raise (IndexError NC.msg_not_found), s0)) /\
  (let s0 := fresh NCArray "x" NC.new_dataset in
   write (VArray t_int [2; 2] [VInt 1; VInt 2; VInt 3; VInt 4]) s0
     = (Raise TypeMismatch, s0)) /\
  (let s0 := fresh NCIterable "x" NC.new_dataset in
   write (VTuple [VInt 1; VInt 2; VInt 3]) s0 = (Raise TypeMismatch, s0)) /\
  (let s1 := fresh NCInt "count" on_file in
   fst (NCInt_read s1) = Return (VArray t_int [1] [VInt 42]) /\
   fst (write (VInt 7) s1) = Raise (TypeError msg_cannot_overwrite) /\
   is_unbound (self (snd (write (VInt 7) s1))) = false /\
   fst (NCInt_read (snd (write (VInt 7) s1))) = Return (VArray t_int [1] [VInt 42])).
Proof.
  intros Hr Hc. split; [|split; [|split]].
  - apply write_raises; [now apply reachable_never_w|exact Hc].
  - intros e Hu Hg H He. split.
    + now apply write_lookup_raises.
    + now apply read_lookup_raises.
  - intros m Hu Hs Hg H. now apply (write_creates_nothing s m).
  - repeat (split; [evaluate|]). evaluate.
Qed.

Lemma round_trip_write_raises_witness :
  let s0 := fresh NCInt "x" NC.new_dataset in
  reachable s0 /\
  class (self s0) <> NCDict /\
  (exists e, fst (write (VInt 42) s0) = Raise e) /\
  write (VInt 42) s0 = (Raise (IndexError NC.msg_not_found), s0).
Proof.
  intros s0.
  assert (Hr : reachable s0) by apply reachable_new.
  assert (Hc : class (self s0) <> NCDict) by (vm_compute; discriminate).
  split; [exact Hr|]. split; [exact Hc|].
  destruct (round_trip_write_raises s0 (VInt 42) Hr Hc) as (Hraises & Hlookup & _).
  split; [exact Hraises|].
  apply (Hlookup (IndexError NC.msg_not_found)); reflexivity.
Defined.


(* ===================================================================== *)
(** * Type gating *)
(* ===================================================================== *)

(** A value the type test turns away leaves the handler and the file as
    they were; this is the path of the six classes stored as variables. *)
Lemma write_type_mismatch (s : state) (data : value) :
  class (self s) <> NCDict ->
  type_gate (class (self s)) data = false ->
  write data s = (Raise TypeMismatch, s).
Proof.
  intros Hc Hg. unfold write, bind at 1, get_self at 1.
  destruct (class (self s)); try congruence; clear Hc;
    unfold NCArray_write, NCFloat_write, NCInt_write, NCIterable_write,
      NCQuantity_write, NCString_write, number_write; unfold type_gate in Hg;
    rewrite Hg; reflexivity.
Qed.

Lemma append_type_mismatch (s : state) (data : value) :
  class (self s) <> NCDict ->
  type_gate (class (self s)) data = false ->
  append data s = (Raise TypeMismatch, s).
Proof.
  intros Hc Hg. unfold append, bind at 1, get_self at 1.
  destruct (class (self s)); try congruence; clear Hc;
    unfold NCArray_append, NCFloat_append, NCInt_append, NCIterable_append,
      NCQuantity_append, NCString_append, number_append; unfold type_gate in Hg;
    rewrite Hg; reflexivity.
Qed.

(** Metadata added to a handler that is bound to a group goes to the group:
    a group counts as true. *)
Lemma add_metadata_on_group (name : string) (a : value) (g : list string) (s : state) :
  _bound_target (self s) = Some (NC.RefGroup g) ->
  add_metadata name a s =
  (Return tt, {| ncfile := NC.setncattr (ncfile s) (NC.RefGroup g) name a;
                 self := self s; warnings := warnings s |}).
Proof.
  intros Hb.
  unfold add_metadata, not_bound_target, bound_target, bind, get_self, get_file, lift, ret,
    set_file.
  rewrite Hb. cbn [NC.truth negb]. rewrite Hb. reflexivity.
Qed.

Lemma dump_on_group (g : list string) (s : state) :
  _bound_target (self s) = Some (NC.RefGroup g) ->
  _dump_metadata_buffer s =
  (Return tt,
   {| ncfile := NC.setncatts (ncfile s) (NC.RefGroup g) (_metadata_buffer (self s));
      self := set_metadata_buffer ∅ (self s); warnings := warnings s |}).
Proof.
  intros Hb.
  unfold _dump_metadata_buffer, not_bound_target, bound_target, bind, get_self, get_file,
    lift, ret, set_file, update_self.
  rewrite Hb. cbn [NC.truth negb]. rewrite Hb. reflexivity.
Qed.

(** [NCDict._bind_write] on a target that names a group: the handler binds
    to the group, stamps it and returns. *)
Lemma NCDict_bind_write_on_group (s : state) (g : list string) :
  target_lookup s = Return (NC.RefGroup g) ->
  exists ds w,
    NCDict_bind_write s =
    (Return tt,
     {| ncfile := ds;
        self := set_metadata_buffer ∅ (set_bound_target (NC.RefGroup g) (self s));
        warnings := w |}).
Proof.
  intros H. destruct (attempt_storage_read_found s _ H) as (w & E).
  unfold NCDict_bind_write, NCDict_bind_read.
  rewrite (bind_returns _ _ _ _ _ (try_except_returns _ _ _ _ _ _ E)).
  do 2 eexists.
  repeat match goal with
         | |- bind (add_metadata ?name ?a) _ ?st = _ =>
             rewrite (bind_returns _ _ _ _ _ (add_metadata_on_group name a g st eq_refl));
             cbn [self warnings ncfile]
         end.
  match goal with
  | |- _dump_metadata_buffer ?st = _ => rewrite (dump_on_group g st eq_refl)
  end.
  cbn [self warnings ncfile set_bound_target _metadata_buffer]. reflexivity.
Qed.

Lemma encode_dict_not_a_dict (s : state) (data : value) :
  Py.type_of data <> t_dict ->
  fst (_encode_dict data s) = Raise (AttributeError "object has no attribute 'keys'") /\
  self (snd (_encode_dict data s)) = self s.
Proof.
  intros Hd. unfold _encode_dict, check_scalar_dimension, bind, get_file, set_file, ret, raise.
  destruct data; simpl in *; try congruence;
    destruct (negb _); split; reflexivity.
Qed.

(** C5 -- Type gating (the record handler misses it).  For the six classes
    stored as variables a value that fails the class's type test makes
    [write] raise the type-mismatch [TypeError] with nothing changed.
    [NCDict.write] has no such test.  Given a value that is not a dict: on a
    bound handler it fails with the [AttributeError] of [data.keys()]; on a
    target that names a group it binds to the group first, writes its three
    stamps on it, and then fails with that [AttributeError]; on a target the
    lookup does not find it raises the error of the lookup.  It is never
    the type test that turns the value away.  On the representative value:
    [write(42)] on the path [x] of an empty file raises the [IndexError] of
    the lookup; on the group [plain], which carried no attribute, it leaves
    the group stamped as a dict and raises [AttributeError]. *)
Theorem record_write_has_no_type_test (s : state) (data : value) :
  Py.type_of data <> t_dict ->
  (class (self s) <> NCDict -> type_gate (class (self s)) data = false ->
   write data s = (Raise TypeMismatch, s)) /\
  (class (self s) = NCDict -> is_unbound (self s) = false ->
   fst (write data s) = Raise (AttributeError "object has no attribute 'keys'")) /\
  (forall g, class (self s) = NCDict -> is_unbound (self s) = true ->
   target_lookup s = Return (NC.RefGroup g) ->
   fst (write data s) = Raise (AttributeError "object has no attribute 'keys'") /\
   _bound_target (self (snd (write data s))) = Some (NC.RefGroup g)) /\
  (forall e, class (self s) = NCDict -> is_unbound (self s) = true ->
   target_lookup s = Raise e -> is_KeyError e = false ->
   write data s = (Raise e, s)) /\
  (let s0 := fresh NCDict "x" NC.new_dataset in
   write (VInt 42) s0 = (Raise (IndexError NC.msg_not_found), s0)) /\
  (let s1 := fresh NCDict "plain" on_file in
   let after := ncfile (snd (write (VInt 42) s1)) in
   NC.grp_attrs (NC.get_group (ncfile s1) ["plain"]) = ∅ /\
   fst (write (VInt 42) s1) = Raise (AttributeError "object has no attribute 'keys'") /\
   fst (write (VInt 42) s1) <> Raise TypeMismatch /\
   NC.getncattr after (NC.RefGroup ["plain"]) "IODriver_Type" = Return (VStr "dict") /\
   NC.getncattr after (NC.RefGroup ["plain"]) "IODriver_Storage_Type"
     = Return (VStr "group") /\
   NC.getncattr after (NC.RefGroup ["plain"]) "IODriver_Appendable" = Return (VInt 0)).
Proof.
  intros Hd. split; [|split; [|split; [|split]]].
  - intros Hc Hg. now apply write_type_mismatch.
  - intros Hc Hb. unfold write. rewrite bind_get_self, Hc.
    unfold NCDict_write. rewrite bind_get_self, Hb.
    unfold bind at 1, ret at 1. now apply encode_dict_not_a_dict.
  - intros g Hc Hu H.
    destruct (NCDict_bind_write_on_group s g H) as (ds & w & E).
    unfold write. rewrite bind_get_self, Hc.
    unfold NCDict_write. rewrite bind_get_self, Hu.
    rewrite (bind_returns _ _ _ _ _ E).
    destruct (encode_dict_not_a_dict
                {| ncfile := ds;
                   self := set_metadata_buffer ∅ (set_bound_target (NC.RefGroup g) (self s));
                   warnings := w |} data Hd) as (Hfst & Hself).
    split; [exact Hfst|]. now rewrite Hself.
  - intros e Hc Hu H He. apply write_lookup_raises; try assumption.
    now rewrite Hc.
  - cbv zeta. split; [vm_compute; reflexivity|].
    repeat apply conj; try (vm_compute; reflexivity).
    vm_compute. discriminate.
Qed.

Lemma record_write_has_no_type_test_witness :
  let s1 := fresh NCDict "plain" on_file in
  Py.type_of (VInt 42) <> t_dict /\
  class (self s1) = NCDict /\ is_unbound (self s1) = true /\
  target_lookup s1 = Return (NC.RefGroup ["plain"]) /\
  fst (write (VInt 42) s1) = Raise (AttributeError "object has no attribute 'keys'") /\
  _bound_target (self (snd (write (VInt 42) s1))) = Some (NC.RefGroup ["plain"]).
Proof.
  intros s1.
  assert (Hd : Py.type_of (VInt 42) <> t_dict) by (vm_compute; discriminate).
  assert (Hl : target_lookup s1 = Return (NC.RefGroup ["plain"]))
    by (vm_compute; reflexivity).
  split; [exact Hd|]. split; [reflexivity|]. split; [reflexivity|]. split; [exact Hl|].
  destruct (record_write_has_no_type_test s1 (VInt 42) Hd) as (_ & _ & Hgroup & _).
  exact (Hgroup ["plain"] eq_refl eq_refl Hl).
Defined.


(* ===================================================================== *)
(** * Bound handlers *)
(* ===================================================================== *)

Lemma bound_target_returns (s : state) (r : NC.objref) :
  _bound_target (self s) = Some r -> bound_target s = (Return r, s).
Proof. intros H. unfold bound_target. now rewrite bind_get_self, H. Qed.

Lemma append_mode_guard_raises (msg : string) (s : state) :
  _output_mode (self s) <> Some "a" ->
  append_mode_guard msg s = (Raise (TypeError msg), s).
Proof.
  intros H. unfold append_mode_guard, bind, get_self.
  now rewrite bool_decide_eq_true_2.
Qed.

Lemma append_mode_guard_passes (msg : string) (s : state) :
  _output_mode (self s) = Some "a" -> append_mode_guard msg s = (Return tt, s).
Proof.
  intros H. unfold append_mode_guard. rewrite bind_get_self, H.
  rewrite bool_decide_eq_false_2 by (intros K; now apply K). reflexivity.
Qed.

(** On a bound handler [append] is its type test followed by its mode guard
    and by steps that do not assign to [self]. *)
Lemma append_bound (s : state) (data : value) :
  class (self s) <> NCDict ->
  is_unbound (self s) = false ->
  append data s =
  (if type_gate (class (self s)) data
   then append_tail (class (self s)) data s
   else (Raise TypeMismatch, s)).
Proof.
  intros Hc Hb.
  unfold append, bind at 1, get_self at 1.
  destruct (class (self s)) eqn:Hclass; try congruence; clear Hc;
    unfold NCArray_append, NCFloat_append, NCInt_append, NCIterable_append,
      NCQuantity_append, NCString_append, number_append, type_gate, append_tail;
    match goal with |- context [negb ?g] => destruct g end; simpl; try reflexivity;
    unfold bind at 1, get_self at 1; rewrite Hb;
    unfold bind at 1, ret at 1; reflexivity.
Qed.


(* ===================================================================== *)
(** * Append accumulation *)
(* ===================================================================== *)















(* ===================================================================== *)
(** * The binds of the quantity handler *)
(* ===================================================================== *)

Lemma raises_raise {A} (e : exn) : raises (@raise A e).
Proof. intros s. exists e. reflexivity. Qed.

Lemma raises_bind_left {A B} (m : M A) (k : A -> M B) : raises m -> raises (bind m k).
Proof.
  intros Hm s. destruct (Hm s) as [e He]. unfold bind.
  destruct (m s) as [[a|e'] s1]; simpl in *; [discriminate|eauto].
Qed.

Lemma raises_bind_right {A B} (m : M A) (k : A -> M B) :
  (forall a, raises (k a)) -> raises (bind m k).
Proof.
  intros Hk s. unfold bind. destruct (m s) as [[a|e'] s1]; simpl; [apply Hk|eauto].
Qed.

(** The creation branch of the quantity handler never gets past its
    [createVariable] call. *)
Lemma NCQuantity_create_raises (leading : list string) (z : Z) (data : value) :
  raises (NCQuantity_create leading z data).
Proof.
  unfold NCQuantity_create.
  apply raises_bind_right. intros [[data_shape data_base_type] data_type_name].
  apply raises_bind_right. intros _. apply raises_bind_left.
  destruct data_shape as [lengths|n].
  - apply raises_bind_right. intros dims. apply raises_raise.
  - destruct n as [|[p|p|]|p]; try apply raises_raise.
    apply raises_bind_right. intros _. apply raises_raise.
Qed.

Lemma raises_after_quantity_bind_read (k : M (option string)) :
  raises k ->
  forall s a s1,
    try_except (bind NCQuantity_bind_read (fun _ => ret None)) is_KeyError k s
      = (Return a, s1) ->
    a = None.
Proof.
  intros Hk s a s1. unfold try_except.
  destruct (bind NCQuantity_bind_read (fun _ => ret None) s) as [[b|e] s2] eqn:Eb.
  - intros E. inversion E; subst. split_bind Eb as u s3 E3. now inversion Eb.
  - destruct (is_KeyError e); [|discriminate].
    intros E. destruct (Hk s2) as [e' He']. rewrite E in He'. discriminate.
Qed.

(** Neither bind of the quantity handler ever returns.  On a target that is
    not found the lookup or the creation call raises; on a target that is
    found, [data_type_name] is unbound when [_set_codifiers] asks for it. *)
Lemma NCQuantity_bind_write_raises (data : value) : raises (NCQuantity_bind_write data).
Proof.
  intros s. unfold NCQuantity_bind_write. unfold bind at 1.
  destruct (try_except _ _ _ s) as [[a|e] s1] eqn:Etry; [|simpl; eauto].
  apply raises_after_quantity_bind_read in Etry as ->.
  - apply raises_bind_right. intros _. apply raises_bind_right. intros _.
    apply raises_raise.
  - apply raises_bind_left, NCQuantity_create_raises.
Qed.

Lemma NCQuantity_bind_append_raises (data : value) : raises (NCQuantity_bind_append data).
Proof.
  intros s. unfold NCQuantity_bind_append. unfold bind at 1.
  destruct (try_except _ _ _ s) as [[a|e] s1] eqn:Etry; [|simpl; eauto].
  apply raises_after_quantity_bind_read in Etry as ->.
  - apply raises_bind_right. intros _. apply raises_bind_right. intros _.
    apply raises_raise.
  - apply raises_bind_left, NCQuantity_create_raises.
Qed.

(* ===================================================================== *)
(** * Mode exclusivity *)
(* ===================================================================== *)














(* ===================================================================== *)
(** * Shape and unit on the quantity handler *)
(* ===================================================================== *)

Lemma attribute_returns {A} (name : string) (field : handler -> option A) (s : state)
    (a : A) :
  field (self s) = Some a -> attribute name field s = (Return a, s).
Proof. intros H. unfold attribute. now rewrite bind_get_self, H. Qed.

Lemma attribute_raises {A} (name : string) (field : handler -> option A) (s : state) :
  field (self s) = None -> attribute name field s = (Raise (AttributeError name), s).
Proof. intros H. unfold attribute. now rewrite bind_get_self, H. Qed.

(** [_compare_shape] is assigned by [_determine_data_information] only,
    that is in a creation branch.  On a bound quantity handler without it,
    an [append] raises and changes nothing: the type test, the mode guard,
    or the shape guard itself, which fails on the missing attribute before it
    compares anything.  It never gets to store. *)
Lemma quantity_append_without_comparator (s : state) (data : value) :
  class (self s) = NCQuantity ->
  is_unbound (self s) = false ->
  _compare_shape (self s) = None ->
  exists e, append data s = (Raise e, s) /\ e <> ShapeMismatch /\ e <> UnitMismatch.
Proof.
  intros Hclass Hb Hcmp.
  rewrite append_bound; [|rewrite Hclass; discriminate|exact Hb].
  rewrite Hclass. destruct (type_gate NCQuantity data).
  - unfold append_tail.
    destruct (decide (_output_mode (self s) = Some "a")) as [Hm|Hm].
    + rewrite (bind_returns _ _ _ _ _ (append_mode_guard_passes _ s Hm)).
      unfold shape_guard.
      destruct (_save_shape (self s)) as [saved|] eqn:Hsaved.
      * rewrite (bind_raises _ _ s s (AttributeError "_compare_shape")).
        -- eexists. split; [reflexivity|]. split; discriminate.
        -- rewrite (bind_returns _ _ _ _ _ (attribute_returns _ _ s saved Hsaved)).
           now rewrite (bind_raises _ _ _ _ _ (attribute_raises _ _ s Hcmp)).
      * rewrite (bind_raises _ _ s s (AttributeError "_save_shape")).
        -- eexists. split; [reflexivity|]. split; discriminate.
        -- now rewrite (bind_raises _ _ _ _ _ (attribute_raises _ _ s Hsaved)).
    + rewrite (bind_raises _ _ _ _ _ (append_mode_guard_raises _ s Hm)).
      eexists. split; [reflexivity|]. split; discriminate.
  - eexists. split; [reflexivity|]. split; discriminate.
Qed.

Lemma quantity_append_raises (s : state) (data : value) :
  class (self s) = NCQuantity ->
  _compare_shape (self s) = None ->
  exists e, fst (append data s) = Raise e.
Proof.
  intros Hclass Hcmp. destruct (is_unbound (self s)) eqn:Hu.
  - destruct (type_gate (class (self s)) data) eqn:Hg.
    + destruct (NCQuantity_bind_append_raises data s) as [e He].
      destruct (NCQuantity_bind_append data s) as [[u|e'] s1] eqn:E; [discriminate|].
      exists e'. rewrite (append_bind_raises s s1 e' data); [reflexivity| | | |].
      * rewrite Hclass. discriminate.
      * exact Hu.
      * exact Hg.
      * rewrite Hclass. unfold _bind_append. rewrite bind_get_self, Hclass. exact E.
    + rewrite append_type_mismatch; [eauto| |exact Hg]. rewrite Hclass. discriminate.
  - destruct (quantity_append_without_comparator s data Hclass Hu Hcmp) as (e & -> & _).
    eauto.
Qed.

Lemma quantity_binds_raise (s : state) (data : value) :
  class (self s) = NCQuantity ->
  (exists e, fst (_bind_write data s) = Raise e) /\
  (exists e, fst (_bind_append data s) = Raise e).
Proof.
  intros Hclass. unfold _bind_write, _bind_append. rewrite !bind_get_self, Hclass. split.
  - apply NCQuantity_bind_write_raises.
  - apply NCQuantity_bind_append_raises.
Qed.

(** C2 -- Shape immutability (the code never gets there).  No call fixes a
    shape by succeeding.  [NCArray] and [NCIterable] turn every value away
    in [write] and in [append], in every state.  On a quantity handler
    neither bind ever returns, so the first [write] or [append] raises
    whatever the file holds; no [write] returns in any state; and, the
    comparison function being assigned in a creation branch only, an
    [append] on a handler without it raises, at the latest on the missing
    attribute in the shape guard, which is not the shape-mismatch error.
    On the series [temperature], whose entries have shape [(2,)]: the first
    [append] of a value of that shape raises [UnboundLocalError] and leaves
    the handler bound with the shape recorded; after it a value of that
    shape and a value of shape [(3,)] get the same [AttributeError] in
    [append] and the same mode violation in [write], and the series still
    holds its one entry.  On the array [grid]
    the array handler and the sequence handler raise the type-mismatch
    error for a value of the stored shape. *)
Theorem shape_guard_misses (s : state) (data : value) :
  (class (self s) = NCArray \/ class (self s) = NCIterable ->
   write data s = (Raise TypeMismatch, s) /\ append data s = (Raise TypeMismatch, s)) /\
  (class (self s) = NCQuantity ->
   (exists e, fst (_bind_write data s) = Raise e) /\
   (exists e, fst (_bind_append data s) = Raise e) /\
   (reachable s -> exists e, fst (write data s) = Raise e) /\
   (_compare_shape (self s) = None ->
    (exists e, fst (append data s) = Raise e) /\
    (is_unbound (self s) = false ->
     exists e, append data s = (Raise e, s) /\ e <> ShapeMismatch))) /\
  (let s0 := fresh NCQuantity "temperature" on_file in
   let same := VQuantity array_34 "kelvin" in
   let other := VQuantity (VArray t_int [3] [VInt 3; VInt 4; VInt 5]) "kelvin" in
   let s1 := snd (append same s0) in
   fst (append same s0) = Raise (UnboundLocalError msg_data_type_name) /\
   is_unbound (self s1) = false /\
   _output_mode (self s1) = Some "a" /\
   _save_shape (self s1) = Some (ShapeTuple [2]) /\
   _compare_shape (self s1) = None /\
   fst (append same s1) = Raise (AttributeError "_compare_shape") /\
   fst (append other s1) = Raise (AttributeError "_compare_shape") /\
   fst (write same s1) = Raise (TypeError msg_cannot_overwrite) /\
   fst (write other s1) = Raise (TypeError msg_cannot_overwrite) /\
   fst (current_length s1) = Return 1) /\
  (let a0 := fresh NCArray "grid" on_file in
   let i0 := fresh NCIterable "grid" on_file in
   fst (write array_34 a0) = Raise TypeMismatch /\
   fst (append array_34 a0) = Raise TypeMismatch /\
   fst (write (VList [VInt 3; VInt 4]) i0) = Raise TypeMismatch /\
   fst (append (VList [VInt 3; VInt 4]) i0) = Raise TypeMismatch).
Proof.
  split; [|split; [|split]].
  - intros Hc.
    assert (Hd : class (self s) <> NCDict) by (destruct Hc as [-> | ->]; discriminate).
    pose proof (type_gate_array_iterable _ data Hc) as Hg.
    split; [now apply write_type_mismatch|now apply append_type_mismatch].
  - intros Hclass.
    destruct (quantity_binds_raise s data Hclass) as (Hwrite & Happend).
    split; [exact Hwrite|]. split; [exact Happend|]. split.
    + intros Hr. apply write_raises; [now apply reachable_never_w|].
      rewrite Hclass. discriminate.
    + intros Hcmp. split; [now apply quantity_append_raises|].
      intros Hb.
      destruct (quantity_append_without_comparator s data Hclass Hb Hcmp)
        as (e & He & Hshape & _).
      eauto.
  - evaluate.
  - evaluate.
Qed.

Lemma shape_guard_misses_witness :
  let s0 := fresh NCQuantity "temperature" on_file in
  let same := VQuantity array_34 "kelvin" in
  let s1 := snd (append same s0) in
  class (self s1) = NCQuantity /\
  _compare_shape (self s1) = None /\
  is_unbound (self s1) = false /\
  exists e, append same s1 = (Raise e, s1) /\ e <> ShapeMismatch.
Proof.
  intros s0 same s1.
  assert (Hc : class (self s1) = NCQuantity) by (vm_compute; reflexivity).
  assert (Hcmp : _compare_shape (self s1) = None) by (vm_compute; reflexivity).
  assert (Hb : is_unbound (self s1) = false) by (vm_compute; reflexivity).
  split; [exact Hc|]. split; [exact Hcmp|]. split; [exact Hb|].
  destruct (shape_guard_misses s1 same) as (_ & Hquantity & _).
  destruct (Hquantity Hc) as (_ & _ & _ & Happend).
  exact (proj2 (Happend Hcmp) Hb).
Defined.

(* ===================================================================== *)
(** * Unit immutability *)
(* ===================================================================== *)

Lemma unit_guard_cases (s : state) (data : value) (u : string) :
  _unit (self s) = Some (VStr u) ->
  unit_guard data s =
  (if String.eqb u (Py.unit_string data) then Return tt else Raise UnitMismatch, s).
Proof.
  intros Hu. unfold unit_guard, attribute, bind, get_self. rewrite Hu. simpl.
  now destruct (String.eqb u (Py.unit_string data)).
Qed.

(** [read()] on an unbound quantity handler whose target is on file: what
    the read-bind chose decodes the payload, and the recorded unit goes to
    the parser. *)
Lemma NCQuantity_read_on_file (py : interpreter)
    (quantity_from_string : string -> outcome value) (s : state) (r : NC.objref)
    (c : coders) (data : value) (unit_name : string) :
  let s1 := snd (read_prologue NCQuantity_bind_read s) in
  fst (read_prologue NCQuantity_bind_read s) = Return tt ->
  _bound_target (self s1) = Some r ->
  _coders (self s1) = Some c ->
  decode_with py c (ncfile s1) r = Return data ->
  NC.getncattr (ncfile s1) r "IODriver_Unit" = Return (VStr unit_name) ->
  NCQuantity_read py quantity_from_string s =
  (match unit_name with
   | EmptyString => Raise (IndexError "string index out of range")
   | String first _ =>
       match quantity_from_string
               (if Ascii.eqb first "/" then "(" ++ unit_name ++ ")**-1" else unit_name) with
       | Return (VUnit u) | Return (VQuantity _ u) => Return (VQuantity data u)
       | Return _ => Raise (TypeError "unsupported operand type(s) for *")
       | Raise e => Raise e
       end
   end, s1).
Proof.
  intros s1 Hp Hb Hc Hd Hu.
  assert (E : read_prologue NCQuantity_bind_read s = (Return tt, s1)).
  { unfold s1. destruct (read_prologue NCQuantity_bind_read s) as [o s']. simpl in *.
    now subst. }
  unfold NCQuantity_read.
  rewrite (bind_returns _ _ _ _ _ E).
  rewrite (bind_returns _ _ _ _ _ (bound_target_returns s1 r Hb)).
  unfold bind at 1, get_file at 1.
  rewrite (bind_returns _ _ _ _ _ (attribute_returns "_decoder" _coders s1 c Hc)).
  unfold bind, lift, ret, raise. rewrite Hd, Hu.
  destruct unit_name as [|first rest]; [reflexivity|].
  destruct (quantity_from_string _) as [[]|]; reflexivity.
Qed.

(** C6 -- Unit immutability (no call gets to the unit guard).  A [write] on
    a quantity handler never returns, with the recorded unit or another
    one; on a bound handler it is the mode guard that raises, before the
    unit is looked at.  The unit guard itself compares the unit string of
    the value with the recorded one and raises the unit-mismatch
    [ValueError] when they differ.  But neither bind of the handler
    returns, and an [append] on a handler without comparison function
    raises in or before the shape guard, never the unit-mismatch error.  On
    the series [temperature], recorded in kelvin: the first [append] raises
    [UnboundLocalError], leaving the handler bound with the unit [kelvin];
    after it a value in meter and a value in kelvin get the same
    [AttributeError] in [append] and the same mode violation in [write], and
    the series still holds its one entry.  On a new path the lookup raises.  [read()]
    works on what is on file: it returns the stored payload with the unit
    the parser gives for the recorded string, and for the unit [/second] of
    [rate] the parser is handed ["(/second)**-1"]. *)
Theorem quantity_write_never_stores (py : interpreter)
    (quantity_from_string : string -> outcome value) :
  (forall s data, reachable s -> class (self s) = NCQuantity ->
     exists e, fst (write data s) = Raise e) /\
  (forall s data u, _unit (self s) = Some (VStr u) ->
     unit_guard data s =
     (if String.eqb u (Py.unit_string data) then Return tt else Raise UnitMismatch, s)) /\
  (forall s data, reachable s -> class (self s) = NCQuantity ->
     is_unbound (self s) = false ->
     write data s =
     (if type_gate NCQuantity data
      then Raise (TypeError msg_cannot_overwrite)
      else Raise TypeMismatch, s)) /\
  (forall s data, class (self s) = NCQuantity ->
     (exists e, fst (_bind_write data s) = Raise e) /\
     (exists e, fst (_bind_append data s) = Raise e)) /\
  (forall s data, class (self s) = NCQuantity -> _compare_shape (self s) = None ->
     (exists e, fst (append data s) = Raise e) /\
     (is_unbound (self s) = false ->
      exists e, append data s = (Raise e, s) /\ e <> UnitMismatch)) /\
  (let s0 := fresh NCQuantity "temperature" on_file in
   let kelvin := VQuantity array_34 "kelvin" in
   let meter := VQuantity array_34 "meter" in
   let s1 := snd (append kelvin s0) in
   fst (append kelvin s0) = Raise (UnboundLocalError msg_data_type_name) /\
   is_unbound (self s1) = false /\
   _unit (self s1) = Some (VStr "kelvin") /\
   _compare_shape (self s1) = None /\
   fst (append kelvin s1) = Raise (AttributeError "_compare_shape") /\
   fst (append meter s1) = Raise (AttributeError "_compare_shape") /\
   fst (write kelvin s1) = Raise (TypeError msg_cannot_overwrite) /\
   fst (write meter s1) = Raise (TypeError msg_cannot_overwrite) /\
   fst (current_length s1) = Return 1) /\
  (let s0 := fresh NCQuantity "x" NC.new_dataset in
   let kelvin := VQuantity (VInt 300) "kelvin" in
   write kelvin s0 = (Raise (IndexError NC.msg_not_found), s0) /\
   append kelvin s0 = (Raise (IndexError NC.msg_not_found), s0)) /\
  fst (NCQuantity_read py quantity_from_string (fresh NCQuantity "temperature" on_file))
    = match quantity_from_string "kelvin" with
      | Return (VUnit u) | Return (VQuantity _ u) =>
          Return (VQuantity (VArray t_int [1; 2] [VInt 1; VInt 2]) u)
      | Return _ => Raise (TypeError "unsupported operand type(s) for *")
      | Raise e => Raise e
      end /\
  fst (NCQuantity_read py quantity_from_string (fresh NCQuantity "rate" on_file))
    = match quantity_from_string "(/second)**-1" with
      | Return (VUnit u) | Return (VQuantity _ u) =>
          Return (VQuantity (VArray t_int [1] [VInt 50]) u)
      | Return _ => Raise (TypeError "unsupported operand type(s) for *")
      | Raise e => Raise e
      end.
Proof.
  split.
  { intros s data Hr Hc. apply write_raises; [now apply reachable_never_w|].
    rewrite Hc. discriminate. }
  split; [intros s data u; apply unit_guard_cases|].
  split.
  { intros s data Hr Hc Hb. rewrite <- Hc. apply write_bound; try assumption.
    - now apply reachable_never_w.
    - rewrite Hc. discriminate. }
  split; [intros s data; apply quantity_binds_raise|].
  split.
  { intros s data Hc Hcmp. split; [now apply quantity_append_raises|].
    intros Hb.
    destruct (quantity_append_without_comparator s data Hc Hb Hcmp) as (e & He & _ & Hunit).
    eauto. }
  split; [evaluate|]. split; [evaluate|]. split.
  - rewrite (NCQuantity_read_on_file py quantity_from_string
               (fresh NCQuantity "temperature" on_file) (NC.RefVariable [] "temperature")
               ArrayCoders (VArray t_int [1; 2] [VInt 1; VInt 2]) "kelvin");
      [|vm_compute; reflexivity..].
    cbn [fst]. change (Ascii.eqb "k" "/") with false. cbv iota.
    destruct (quantity_from_string "kelvin") as [[]|]; reflexivity.
  - rewrite (NCQuantity_read_on_file py quantity_from_string
               (fresh NCQuantity "rate" on_file) (NC.RefVariable [] "rate")
               IntCoders (VArray t_int [1] [VInt 50]) "/second");
      [|vm_compute; reflexivity..].
    cbn [fst]. change (Ascii.eqb "/" "/") with true. cbv iota.
    change ("(" ++ "/second" ++ ")**-1") with "(/second)**-1".
    destruct (quantity_from_string "(/second)**-1") as [[]|]; reflexivity.
Qed.

Lemma quantity_write_never_stores_witness :
  let s0 := fresh NCQuantity "temperature" on_file in
  let kelvin := VQuantity array_34 "kelvin" in
  let meter := VQuantity array_34 "meter" in
  let s1 := snd (append kelvin s0) in
  reachable s1 /\ class (self s1) = NCQuantity /\ is_unbound (self s1) = false /\
  _unit (self s1) = Some (VStr "kelvin") /\ _compare_shape (self s1) = None /\
  write meter s1 = (Raise (TypeError msg_cannot_overwrite), s1) /\
  unit_guard meter s1 = (Raise UnitMismatch, s1) /\
  exists e, append meter s1 = (Raise e, s1) /\ e <> UnitMismatch.
Proof.
  intros s0 kelvin meter s1.
  assert (Hr : reachable s1) by apply (reachable_call s0 (do_append kelvin)), reachable_new.
  assert (Hc : class (self s1) = NCQuantity) by (vm_compute; reflexivity).
  assert (Hb : is_unbound (self s1) = false) by (vm_compute; reflexivity).
  assert (Hu : _unit (self s1) = Some (VStr "kelvin")) by (vm_compute; reflexivity).
  assert (Hcmp : _compare_shape (self s1) = None) by (vm_compute; reflexivity).
  split; [exact Hr|]. split; [exact Hc|]. split; [exact Hb|]. split; [exact Hu|].
  split; [exact Hcmp|].
  destruct (quantity_write_never_stores
              {| builtin := fun _ => None;
                 import_attribute := fun _ _ => Raise (ImportError "No module named") |}
              (fun u => Return (VUnit u)))
    as (_ & Hguard & Hwrite & _ & Happend & _).
  split; [exact (Hwrite s1 meter Hr Hc Hb)|].
  split; [exact (Hguard s1 meter "kelvin" Hu)|].
  exact (proj2 (Happend s1 meter Hc Hcmp) Hb).
Defined.


(* ===================================================================== *)
(** * The driver: type tags and the handler cache *)
(* ===================================================================== *)

Lemma locate_last_entry (ds : NC.dataset) (split_path : list string) (r : NC.objref) :
  locate ds split_path = Return r -> exists name, Path.last_entry split_path = Some name.
Proof.
  unfold locate. repeat case_match; intros; simplify_eq; eauto.
Qed.

(** A name that is a child group without the mark of a stored group, and no
    variable: the first block of [get_variable_handler] ends in the
    [KeyError] of [head_group.variables]. *)
Lemma locate_unmarked_group (ds : NC.dataset) (split_path head : list string)
    (name : string) :
  walk_groups ds [] (Path.all_but_last split_path) = Return head ->
  Path.last_entry split_path = Some name ->
  NC.getncattr ds (NC.RefGroup (head ++ [name])) "IODriver_Storage_Type"
    <> Return (VStr "group") ->
  NC.get_variable ds head name = None ->
  locate ds split_path = Raise (KeyError name).
Proof.
  intros Hwalk Hname Hmark Hvar. unfold locate. rewrite Hwalk, Hname, Hvar.
  destruct (NC.has_subgroup ds head name); [|reflexivity].
  destruct (NC.getncattr ds (NC.RefGroup (head ++ [name])) "IODriver_Storage_Type")
    as [v|e]; [|reflexivity].
  destruct v as [| |text| | | | | | | | |]; try reflexivity.
  destruct (decide (text = "group")) as [->|Hv]; [now destruct Hmark|].
  repeat case_match; try reflexivity; simplify_eq.
Qed.

(** C7 (counterexample) -- on a file whose variable [legacy] has no type tag,
    [get_variable_handler] raises: it returns no handler, emits no warning
    and caches nothing, on the instance the constructor leaves and on one
    that has the registry alike. *)
Lemma get_variable_handler_untagged_raises :
  let d := left_by_init on_file in
  let result := get_variable_handler "/legacy" d in
  let result' := get_variable_handler "/legacy" (with_registry d) in
  (fst result = Raise AttributeMissing /\
   _variables (snd result) = ∅ /\
   objects (snd result) = [] /\
   drv_warnings (snd result) = [] /\
   fst result' = Raise AttributeMissing /\
   _variables (snd result') = ∅ /\
   objects (snd result') = [] /\
   drv_warnings (snd result') = []) /\
  ~ (exists handler, fst result = Return handler) /\
  ~ (exists handler, fst result' = Return handler).
Proof.
  intros d result result'.
  assert (H : fst result = Raise AttributeMissing /\
              _variables (snd result) = ∅ /\
              objects (snd result) = [] /\
              drv_warnings (snd result) = [] /\
              fst result' = Raise AttributeMissing /\
              _variables (snd result') = ∅ /\
              objects (snd result') = [] /\
              drv_warnings (snd result') = []) by evaluate.
  split; [exact H|].
  destruct H as (H1 & _ & _ & _ & H2 & _).
  split; intros [handler Hh]; [rewrite H1 in Hh|rewrite H2 in Hh]; discriminate.
Qed.

(** C7 (amended) -- Legacy objects.  For a path that is not cached.  When
    the path names a variable, or a group marked as a stored group, that has
    no type-tag attribute, [get_variable_handler] raises the
    attribute-missing [AttributeError] and leaves the driver as it was: no
    handler, no warning, nothing cached.  When it names a group without the
    mark, and no variable, it raises the [KeyError] of an object that is not
    found.  When the tag is there, the registry of readers decides: an
    instance without the registry raises the attribute-missing error again;
    a tag that is no key of the registry raises the unknown-type
    [KeyError], which is raised in no other case; a tag that cannot be a key
    at all raises the [TypeError] of the lookup; in none of the three is a handler made, cached or a
    warning emitted; and a tag the registry knows gives a new, unbound
    handler of the class it names, which is cached.  The non-fatal warning
    belongs to the handler's own read-bind: [_attempt_storage_read] on an
    object without a type tag binds to it, warns and returns. *)
Theorem get_variable_handler_type_tag (d : driver) (path : string) :
  _variables d !! path = None ->
  (forall variable e,
     locate (drv_ncfile d) (Path.decompose_path path) = Return variable ->
     NC.getncattr (drv_ncfile d) variable "IODriver_Type" = Raise e ->
     get_variable_handler path d = (Raise AttributeMissing, d)) /\
  (forall head name,
     walk_groups (drv_ncfile d) [] (Path.all_but_last (Path.decompose_path path))
       = Return head ->
     Path.last_entry (Path.decompose_path path) = Some name ->
     NC.getncattr (drv_ncfile d) (NC.RefGroup (head ++ [name])) "IODriver_Storage_Type"
       <> Return (VStr "group") ->
     NC.get_variable (drv_ncfile d) head name = None ->
     get_variable_handler path d = (Raise (KeyError msg_no_variable), d)) /\
  (forall variable tag,
     locate (drv_ncfile d) (Path.decompose_path path) = Return variable ->
     NC.getncattr (drv_ncfile d) variable "IODriver_Type" = Return tag ->
     let result := get_variable_handler path d in
     match _IOMetaDataReaders d with
     | None =>
         fst result = Raise AttributeMissing /\
         _variables (snd result) = _variables d /\ objects (snd result) = objects d /\
         drv_warnings (snd result) = drv_warnings d
     | Some registry =>
         match registry_getitem registry tag with
         | Raise (KeyError _) =>
             fst result = Raise (KeyError msg_no_reader) /\
             UnknownType (KeyError msg_no_reader) /\
             _variables (snd result) = _variables d /\ objects (snd result) = objects d /\
             drv_warnings (snd result) = drv_warnings d
         | Raise e =>
             fst result = Raise e /\
             _variables (snd result) = _variables d /\ objects (snd result) = objects d /\
             drv_warnings (snd result) = drv_warnings d
         | Return c =>
             fst result = Return (List.length (objects d)) /\
             _variables (snd result) !! path = Some (List.length (objects d)) /\
             class <$> (objects (snd result) !! List.length (objects d)) = Some c /\
             is_unbound <$> (objects (snd result) !! List.length (objects d)) = Some true /\
             drv_warnings (snd result) = drv_warnings d
         end
     end) /\
  (forall e, fst (get_variable_handler path d) = Raise e -> UnknownType e ->
   exists variable tag registry m,
     locate (drv_ncfile d) (Path.decompose_path path) = Return variable /\
     NC.getncattr (drv_ncfile d) variable "IODriver_Type" = Return tag /\
     _IOMetaDataReaders d = Some registry /\
     registry_getitem registry tag = Raise (KeyError m)) /\
  (forall s r e,
     target_lookup s = Return r ->
     NC.getncattr (ncfile s) r "IODriver_Type" = Raise e ->
     _attempt_storage_read s =
     (Return tt, {| ncfile := ncfile s; self := set_bound_target r (self s);
                    warnings := (warnings s ++ [msg_no_detect])%list |})).
Proof.
  intros Hcache. split; [|split; [|split; [|split]]].
  - intros variable e Hloc He. pose proof (getncattr_raises _ _ _ _ He) as ->.
    unfold get_variable_handler. now rewrite Hcache, Hloc, He.
  - intros head name Hwalk Hname Hmark Hvar.
    unfold get_variable_handler.
    now rewrite Hcache, (locate_unmarked_group _ _ _ _ Hwalk Hname Hmark Hvar).
  - intros variable tag Hloc Htag result.
    destruct (locate_last_entry _ _ _ Hloc) as [name Hname].
    unfold result, get_variable_handler. rewrite Hcache, Hloc, Htag, Hname.
    unfold _bind_group. cbn [_IOMetaDataReaders].
    destruct (_IOMetaDataReaders d) as [registry|]; [|repeat split].
    destruct (registry_getitem registry tag) as [c|e].
    + unfold install_handler. cbn [fst snd _variables objects drv_warnings].
      repeat apply conj; try reflexivity.
      * apply lookup_insert_eq.
      * rewrite lookup_app_r by reflexivity. now rewrite Nat.sub_diag.
      * rewrite lookup_app_r by reflexivity. now rewrite Nat.sub_diag.
    + destruct e; cbn [fst snd _variables objects drv_warnings];
        repeat apply conj; try reflexivity.
      left. reflexivity.
  - intros e. unfold get_variable_handler. rewrite Hcache.
    destruct (locate (drv_ncfile d) (Path.decompose_path path)) as [variable|e'];
      [|destruct e'; cbn [fst]; intros He [Hu|Hu]; simplify_eq].
    destruct (NC.getncattr (drv_ncfile d) variable "IODriver_Type") as [tag|e'] eqn:Htag;
      [|pose proof (getncattr_raises _ _ _ _ Htag) as ->; cbn [fst];
        intros He [Hu|Hu]; simplify_eq].
    destruct (Path.last_entry (Path.decompose_path path));
      [|cbn [fst]; intros He [Hu|Hu]; simplify_eq].
    unfold _bind_group. cbn [_IOMetaDataReaders].
    destruct (_IOMetaDataReaders d) as [registry|];
      [|cbn [fst]; intros He [Hu|Hu]; simplify_eq].
    destruct (registry_getitem registry tag) as [c|e'] eqn:Hlookup; [discriminate|].
    destruct e'; cbn [fst]; intros He [Hu|Hu]; simplify_eq. eauto 10.
  - intros s r e Hr He. pose proof (getncattr_raises _ _ _ _ He) as ->.
    unfold target_lookup in Hr.
    unfold _attempt_storage_read, bind, get_self, get_file, lift, update_self, try_except.
    rewrite Hr. simpl. rewrite He. reflexivity.
Qed.

Lemma get_variable_handler_type_tag_witness :
  let d := with_registry (left_by_init on_file) in
  let result := get_variable_handler "/foreign" d in
  _variables d !! "/foreign" = None /\
  locate (drv_ncfile d) (Path.decompose_path "/foreign")
    = Return (NC.RefVariable [] "foreign") /\
  NC.getncattr (drv_ncfile d) (NC.RefVariable [] "foreign") "IODriver_Type"
    = Return (VStr "complex") /\
  fst result = Raise (KeyError msg_no_reader) /\
  UnknownType (KeyError msg_no_reader) /\
  _variables (snd result) = _variables d /\ objects (snd result) = objects d /\
  drv_warnings (snd result) = drv_warnings d.
Proof.
  intros d result.
  assert (Hcache : _variables d !! "/foreign" = None) by (vm_compute; reflexivity).
  assert (Hloc : locate (drv_ncfile d) (Path.decompose_path "/foreign")
                 = Return (NC.RefVariable [] "foreign")) by (vm_compute; reflexivity).
  assert (Htag : NC.getncattr (drv_ncfile d) (NC.RefVariable [] "foreign") "IODriver_Type"
                 = Return (VStr "complex")) by (vm_compute; reflexivity).
  split; [exact Hcache|]. split; [exact Hloc|]. split; [exact Htag|].
  destruct (get_variable_handler_type_tag d "/foreign" Hcache) as (_ & _ & Htagged & _).
  exact (Htagged _ _ Hloc Htag).
Defined.

(** C8 (counterexample) -- [create_storage_variable] on a path that is
    already in the handler cache constructs a second handler object and
    points the cache at it.  The first object is still there, held by
    whoever got it from the first call: two handlers exist for the path. *)
Lemma create_storage_variable_replaces_cached :
  let d0 := left_by_init NC.new_dataset in
  let d1 := snd (create_storage_variable "/x" (VType t_int) d0) in
  let d2 := snd (create_storage_variable "/x" (VType t_int) d1) in
  (fst (create_storage_variable "/x" (VType t_int) d0) = Return 0%nat /\
   _variables d1 !! "/x" = Some 0%nat /\
   fst (get_variable_handler "/x" d1) = Return 0%nat /\
   fst (create_storage_variable "/x" (VType t_int) d1) = Return 1%nat /\
   _variables d2 !! "/x" = Some 1%nat /\
   List.length (objects d2) = 2%nat /\
   class <$> (objects d2 !! 0%nat) = Some NCInt /\
   class <$> (objects d2 !! 1%nat) = Some NCInt /\
   _target <$> (objects d2 !! 0%nat) = Some "x" /\
   _target <$> (objects d2 !! 1%nat) = Some "x") /\
  fst (create_storage_variable "/x" (VType t_int) d1) <> Return 0%nat.
Proof.
  intros d0 d1 d2. split; [evaluate|]. vm_compute. discriminate.
Qed.

(** C8 (amended) -- Handler cache.  The cache maps a path to one handler.
    [get_variable_handler] on a cached path returns the cached handler and
    changes nothing.  [create_storage_variable], whenever it returns,
    returns a handler object that did not exist before, unbound and of the
    class registered for the type key, and makes the cache entry of the path
    point at it, whether or not the path was cached; the other entries and
    the objects that existed stay as they were. *)
Theorem handler_cache (d : driver) (path : string) (type_key : value) :
  (forall handler, _variables d !! path = Some handler ->
     get_variable_handler path d = (Return handler, d)) /\
  (forall handler d', create_storage_variable path type_key d = (Return handler, d') ->
     handler = List.length (objects d) /\
     objects d !! handler = None /\
     _variables d' !! path = Some handler /\
     (exists c target group,
        _type_maps type_key = Return c /\
        objects d' = (objects d ++ [new_handler c target group])%list) /\
     (forall other, other <> path -> _variables d' !! other = _variables d !! other)).
Proof.
  split.
  - intros handler H. unfold get_variable_handler. now rewrite H.
  - intros handler d'. unfold create_storage_variable.
    destruct (_type_maps type_key) as [c|e] eqn:Hc.
    + destruct (Path.last_entry (Path.decompose_path path)) as [target|]; [|discriminate].
      unfold _bind_group, install_handler. simpl. intros H. inversion H; subst; clear H.
      simpl. repeat apply conj.
      * reflexivity.
      * apply lookup_ge_None. lia.
      * apply lookup_insert_eq.
      * eauto.
      * intros other Hne. now apply lookup_insert_ne.
    + destruct e; discriminate.
Qed.

Lemma handler_cache_witness :
  let d0 := left_by_init NC.new_dataset in
  let d1 := snd (create_storage_variable "/x" (VType t_int) d0) in
  _variables d1 !! "/x" = Some 0%nat /\
  get_variable_handler "/x" d1 = (Return 0%nat, d1) /\
  create_storage_variable "/x" (VType t_int) d0 = (Return 0%nat, d1) /\
  _variables d1 !! "/x" = Some 0%nat /\
  objects d0 !! 0%nat = None.
Proof.
  intros d0 d1.
  assert (H : _variables d1 !! "/x" = Some 0%nat) by (vm_compute; reflexivity).
  assert (Hcreate : create_storage_variable "/x" (VType t_int) d0 = (Return 0%nat, d1))
    by (vm_compute; reflexivity).
  split; [exact H|].
  split; [exact (proj1 (handler_cache d1 "/x" VNone) 0%nat H)|].
  split; [exact Hcreate|].
  destruct (proj2 (handler_cache d0 "/x" (VType t_int)) 0%nat d1 Hcreate)
    as (_ & Hnew & Hcached & _).
  split; [exact Hcached|exact Hnew].
Defined.
